(** * dim-cli: the DIM explorer ([src/core/dim-explorer.js]) and the
      [explorer] command ([src/scripts/explorer.js])

    A shallow embedding of the [DIMExplorer] class and of the part of the
    [explorer] command that drives it, with the properties of the
    specification stated over the embedding.

    Conventions.
    - A JavaScript string is a [string]; each [ascii] stands for one code
      unit, so the strings covered are those with code units below 256.
    - A JavaScript number that holds an amount is a [Z]; where the source
      multiplies by the literal [0.3] the amount is taken to binary64 and
      the product is rounded as IEEE 754 prescribes (Stdlib's [SpecFloat]).
    - A plain object used as a dictionary is a [gmap string _] over its own
      properties; a property that may be missing is an [option].
    - An [async] method is a state transformer over the [World] that either
      returns a value or throws (a rejected promise). *)

From Stdlib Require Import ZArith Lia List Ascii String SpecFloat.
From stdpp Require Import gmap strings.

Local Open Scope string_scope.
Local Open Scope Z_scope.

(** ** JavaScript strings: [String.prototype.replace] and [match] with the
       pattern of the source, two greedy groups of any characters with a
       colon between them (written [ANY:ANY] below) *)

Module JS.

(** [.] matches every code unit but a line terminator (LF, CR; the two
    others, U+2028 and U+2029, are above 255). *)
Definition isLineTerminator (c : ascii) : bool :=
  Ascii.eqb c "010"%char || Ascii.eqb c "013"%char.

(** The longest run of [.]-characters at the head of [s], and what follows
    it (empty, or starting with a line terminator). *)
Fixpoint span_line (s : string) : string * string :=
  match s with
  | EmptyString => (EmptyString, EmptyString)
  | String c s' =>
      if isLineTerminator c then (EmptyString, s)
      else let (l, r) := span_line s' in (String c l, r)
  end.

(** Both [.*] are greedy: on a run [l] of [.]-characters the first group
    extends to the last colon of [l]. [None] when [l] has no colon. *)
Fixpoint split_last_colon (l : string) : option (string * string) :=
  match l with
  | EmptyString => None
  | String c l' =>
      match split_last_colon l' with
      | Some (g1, g2) => Some (String c g1, g2)
      | None => if Ascii.eqb c ":"%char then Some (EmptyString, l') else None
      end
  end.

(** The result of matching [ANY:ANY] against a string. *)
Record MatchResult := {
  before : string;   (* the text in front of the match *)
  group1 : string;   (* $1 *)
  group2 : string;   (* $2 *)
  after : string     (* the text behind the match *)
}.

(** [exec s]: the leftmost match. The expression is not anchored, so the
    start position moves right until the rest of the line holds a colon. *)
Fixpoint exec (s : string) : option MatchResult :=
  match s with
  | EmptyString => None
  | String c s' =>
      let (l, r) := span_line s in
      match split_last_colon l with
      | Some (g1, g2) =>
          Some {| before := EmptyString; group1 := g1; group2 := g2; after := r |}
      | None =>
          match exec s' with
          | Some m =>
              Some {| before := String c (before m); group1 := group1 m;
                      group2 := group2 m; after := after m |}
          | None => None
          end
      end
  end.

(** [s.replace(ANY:ANY, "$1")] *)
Definition replace_1 (s : string) : string :=
  match exec s with
  | Some m => before m ++ group1 m ++ after m
  | None => s
  end.

(** [s.replace(ANY:ANY, "$2")] *)
Definition replace_2 (s : string) : string :=
  match exec s with
  | Some m => before m ++ group2 m ++ after m
  | None => s
  end.

(** [s.match(ANY:ANY)] used as a condition: [null] is falsy, a match
    array is truthy. *)
Definition matches (s : string) : bool :=
  match exec s with Some _ => true | None => false end.

(** [s] holds a colon somewhere. *)
Fixpoint has_colon (s : string) : bool :=
  match s with
  | EmptyString => false
  | String c s' => Ascii.eqb c ":"%char || has_colon s'
  end.

(** *** Numbers: binary64 *)

Definition prec : Z := 53.
Definition emax : Z := 1024.

(** An integer amount as a number: the nearest binary64 value (exact up to
    2^53 in magnitude). *)
Definition of_Z (n : Z) : spec_float := binary_normalize prec emax n 0 false.

(** The literal [0.3]: the binary64 value nearest to 3/10. *)
Definition lit_0_3 : spec_float := SFdiv prec emax (of_Z 3) (of_Z 10).

(** [x * y] on numbers. *)
Definition mul (x y : spec_float) : spec_float := SFmul prec emax x y.

(** [Math.ceil x] for a finite [x], as the integer it denotes: the least
    integer not below [m * 2^e]. ([Math.ceil] leaves infinities and NaN as
    they are; the product of [0.3] and a safe integer is finite, see
    [mul_lit_0_3_normal], and [0] stands for the others here.) *)
Definition Math_ceil (x : spec_float) : Z :=
  match x with
  | S754_zero _ => 0
  | S754_finite s m e =>
      let v := if s then Z.neg m else Z.pos m in
      if 0 <=? e then v * 2 ^ e else - ((- v) / 2 ^ (- e))
  | S754_infinity _ | S754_nan => 0
  end.

(** *** The rounding of binary64, written in integer arithmetic

    These two functions say what [mul] computes on the amounts; that they
    agree with [SFmul] is proved below ([Math_ceil_mul_lit_0_3]). *)

(** [M / 2^k] rounded to the nearest integer, ties to even. *)
Definition rne_shift (M k : Z) : Z :=
  let q := M / 2 ^ k in
  let r := M mod 2 ^ k in
  match 2 * r ?= 2 ^ k with
  | Lt => q
  | Eq => if Z.even q then q else q + 1
  | Gt => q + 1
  end.

(** A non-negative integer rounded to 53 significant bits. *)
Definition RN53 (P : Z) : Z :=
  let k := Z.log2 P - 52 in
  if k <=? 0 then P else rne_shift P k * 2 ^ k.

(** The significand of [lit_0_3]: [0.3] is [m_0_3 * 2^-54]. *)
Definition m_0_3 : positive := 5404319552844595.

End JS.

(** ** Data model *)

(** What the NIS node sends (the JSON shapes of the NEM API; the library
    that fetches them, nem-sdk, is a third-party package). *)

Record MosaicId := { namespaceId : string; name : string }.

Record MosaicLevy := {
  levy_type : Z;
  levy_recipient : string;
  levy_mosaicId : MosaicId;
  levy_fee : Z
}.

(** One element of [response.data] of [namespace.mosaicDefinitions]. *)
Record MosaicDefinition := {
  creator_key : string;
  description : string;
  id : MosaicId;
  properties : list (string * string);
  definition_levy : option MosaicLevy
}.

(** One element of [response.data] of [account.mosaics.owned]. *)
Record OwnedMosaic := { mosaicId : MosaicId; quantity : Z }.

(** Modelled from the spec: the objects that
    [DIMParameters.fromMosaicDefinition] builds and that the registry cache
    holds ([src/core/dim-parameters.js] is not among the sources). The spec
    (section 3, AssetDefinition and LevyConfig) gives the attributes; the
    explorer reads [totalSupply] and [levy.recipient]. *)
Record LevyConfig := { recipient : string; fee : Z; levyMosaic : string }.

Record MosaicParameters := {
  identifier : string;
  totalSupply : Z;
  divisibility : Z;
  levy : option LevyConfig
}.

(** Modelled from the spec: what [DIMParameters.getCoin()] returns, the
    hard-coded description of the primary asset with its creator account
    (spec section 4.1, a constant lookup without failure modes). *)
Record Coin := { creator : string }.

(** *** The node-query collaborator *)

Definition Endpoint := string.

Inductive Request :=
| MosaicDefinitionsRequest (node : Endpoint) (ns : string)
| OwnedMosaicsRequest (node : Endpoint) (address : string).

(** The object a fulfilled request resolves to; [data] may be missing. *)
Record Response (A : Type) := { data : option (list A) }.
Arguments data {A} _.

(** How a request settles: fulfilled with a response, or rejected with a
    transport failure (timeout, unreachable node, malformed payload). *)
Inductive Reply (A : Type) :=
| Fulfilled (r : Response A)
| Rejected (failure : string).
Arguments Fulfilled {A} _.
Arguments Rejected {A} _.

(** The nem-sdk functions the explorer calls. A request is answered by the
    node; its answer may depend on the requests sent before (balances
    change), so the two request functions take that history. *)
Record SDK := {
  (* utils.format.mosaicIdToName *)
  mosaicIdToName : MosaicId -> string;
  (* model.address.toAddress *)
  toAddress : string -> Z -> string;
  (* com.requests.namespace.mosaicDefinitions *)
  mosaicDefinitions : list Request -> Endpoint -> string -> Reply MosaicDefinition;
  (* com.requests.account.mosaics.owned *)
  owned : list Request -> Endpoint -> string -> Reply OwnedMosaic
}.

(** nem-sdk's formatter, as the library defines it: namespace, colon, name. *)
Definition nem_mosaicIdToName (m : MosaicId) : string :=
  namespaceId m ++ ":" ++ name m.

(** The NIS API wrapper handed to the explorer ([this.api]). *)
Record NIS := { sdk : SDK; node : Endpoint; networkId : Z }.

(** *** The parameter registry and the explorer *)

Module DIMParameters.

(** A [DIMParameters] object: the registry cache [mosaicParameters] and the
    two methods the explorer calls. The class itself is not among the
    sources, so its methods are components of the object. *)
Record t := {
  mosaicParameters : gmap string MosaicParameters;
  getCoin : Coin;
  fromMosaicDefinition : MosaicDefinition -> MosaicParameters
}.

(** [this.mosaicParameters[currency] = params] *)
Definition store (currency : string) (params : MosaicParameters) (p : t) : t :=
  {| mosaicParameters := <[currency := params]> (mosaicParameters p);
     getCoin := getCoin p;
     fromMosaicDefinition := fromMosaicDefinition p |}.

End DIMParameters.

Module DIMExplorer.

(** A [DIMExplorer] object. The constructor defines [parameters] and [api].
    [getCurrency] (line 81) also reads a property [mosaicParameters] of the
    explorer itself, which no line of the class defines: it is [None]
    (undefined) on every explorer the constructor builds, and [Some own]
    stands for an explorer that was given such a property, an object [own]
    apart from the registry cache. *)
Record t := {
  mosaicParameters : option (gmap string MosaicParameters);
  parameters : DIMParameters.t;
  api : NIS
}.

(** [new DIMExplorer(NIS)]: lines 56-70. [fresh] is what
    [new DIMParameters()] builds. *)
Definition constructor (fresh : DIMParameters.t) (NIS : NIS) : t :=
  {| mosaicParameters := None; parameters := fresh; api := NIS |}.

Definition set_parameters (p : DIMParameters.t) (e : t) : t :=
  {| mosaicParameters := mosaicParameters e; parameters := p; api := api e |}.

End DIMExplorer.

(** ** Effects: the world an [async] method runs in *)

(** What the command writes and does to the process. *)
Inductive Event :=
| Log (m : string)                                    (* console.log(m) *)
| Help                                                (* this.help() *)
| Output (raw : bool) (title : string) (value : Z) (slug : string)
                                                      (* outputResponse *)
| Exit.                                               (* process.exit() *)

(** The explorer object, the requests sent to the node so far (oldest
    first) and the console. *)
Record World := {
  explorer : DIMExplorer.t;
  sent : list Request;
  console : list Event
}.

Inductive Error :=
| TypeError                              (* a property of undefined is read *)
| TransportFailure (failure : string).   (* a request was rejected *)

(** How a call of an [async] method settles. *)
Inductive Completion (A : Type) :=
| Returns (a : A)
| Throws (e : Error).
Arguments Returns {A} _.
Arguments Throws {A} _.

Definition Async (A : Type) : Type := World -> Completion A * World.

#[global] Instance Async_ret : MRet Async :=
  fun A a w => (Returns a, w).

#[global] Instance Async_bind : MBind Async :=
  fun A B k c w =>
    match c w with
    | (Returns a, w') => k a w'
    | (Throws e, w') => (Throws e, w')
    end.

Definition throw {A : Type} (e : Error) : Async A :=
  fun w => (Throws e, w).

(** [this] inside a method of the explorer. *)
Definition self : Async DIMExplorer.t :=
  fun w => (Returns (explorer w), w).

(** Reading a property of a value that may be undefined. *)
Definition deref {A : Type} (o : option A) : Async A :=
  match o with
  | Some a => mret a
  | None => throw TypeError
  end.

(** [await request]: the request goes out, and the method resumes with the
    response or throws the failure the request was rejected with. *)
Definition await {A : Type} (q : Request) (answer : list Request -> Reply A)
  : Async (Response A) :=
  fun w =>
    let w' := {| explorer := explorer w; sent := sent w ++ [q];
                 console := console w |} in
    match answer (sent w) with
    | Fulfilled r => (Returns r, w')
    | Rejected failure => (Throws (TransportFailure failure), w')
    end.

(** [this.parameters.mosaicParameters[currency] = params] *)
Definition store (currency : string) (params : MosaicParameters) : Async unit :=
  fun w =>
    let e := explorer w in
    (Returns tt,
     {| explorer := DIMExplorer.set_parameters
                      (DIMParameters.store currency params (DIMExplorer.parameters e)) e;
        sent := sent w; console := console w |}).

Definition print (ev : Event) : Async unit :=
  fun w =>
    (Returns tt,
     {| explorer := explorer w; sent := sent w; console := console w ++ [ev] |}).

(** ** [DIMExplorer]: src/core/dim-explorer.js *)

(** Lines 93-101: the loop over [definitions]. *)
Fixpoint getCurrency_loop (currency : string) (definitions : list MosaicDefinition)
  : Async (option MosaicParameters) :=
  match definitions with
  | [] => mret None
  | d :: rest =>
      this ← self;
      let s := mosaicIdToName (sdk (DIMExplorer.api this)) (id d) in
      if negb (String.eqb s currency) then getCurrency_loop currency rest
      else
        let params := DIMParameters.fromMosaicDefinition (DIMExplorer.parameters this) d in
        _ ← store currency params;
        mret (Some params)
  end.

(** Lines 79-102. *)
Definition getCurrency (currency : string) : Async (option MosaicParameters) :=
  this ← self;
  own ← deref (DIMExplorer.mosaicParameters this);
  match own !! currency with
  | Some cached => mret (Some cached)
  | None =>
      let ns := JS.replace_1 currency in
      let mos := JS.replace_2 currency in
      let api := DIMExplorer.api this in
      response ← await (MosaicDefinitionsRequest (node api) ns)
                       (fun history => mosaicDefinitions (sdk api) history (node api) ns);
      let definitions := default [] (data response) in
      getCurrency_loop currency definitions
  end.

(** Lines 142-149: the loop over [mosaics]. [NEM] is the nem-sdk module
    that dim-explorer.js imports. *)
Fixpoint getTotalAvailableLevyAmount_loop (NEM : SDK) (mosaics : list OwnedMosaic)
  : Async Z :=
  match mosaics with
  | [] => mret 0
  | b :: rest =>
      let s := mosaicIdToName NEM (mosaicId b) in
      if negb (String.eqb s "dim:coin") then getTotalAvailableLevyAmount_loop NEM rest
      else mret (quantity b)
  end.

(** Lines 133-150. *)
Definition getTotalAvailableLevyAmount (NEM : SDK) : Async Z :=
  this ← self;
  coin ← deref (DIMParameters.mosaicParameters (DIMExplorer.parameters this) !! "dim:coin");
  levy ← deref (levy coin);
  let address := recipient levy in
  let api := DIMExplorer.api this in
  response ← await (OwnedMosaicsRequest (node api) address)
                   (fun history => owned (sdk api) history (node api) address);
  let mosaics := default [] (data response) in
  getTotalAvailableLevyAmount_loop NEM mosaics.

(** Line 120: [Math.ceil(0.3 * hundredPercentLevyAmount)]. *)
Definition thirtyPercentLevyAmount (hundredPercentLevyAmount : Z) : Z :=
  JS.Math_ceil (JS.mul JS.lit_0_3 (JS.of_Z hundredPercentLevyAmount)).

(** Lines 113-122. *)
Definition getTotalHoldersShareLevyAmount (NEM : SDK) : Async Z :=
  hundredPercentLevyAmount ← getTotalAvailableLevyAmount NEM;
  mret (thirtyPercentLevyAmount hundredPercentLevyAmount).

(** Lines 159-169. *)
Definition getTotalCirculatingSupply (currency : string) : Async Z :=
  this ← self;
  let creator := creator (DIMParameters.getCoin (DIMExplorer.parameters this)) in
  let api := DIMExplorer.api this in
  let address := toAddress (sdk api) creator (networkId api) in
  parameters ← getCurrency currency;
  match parameters with
  | None => mret 0
  | Some parameters => mret (totalSupply parameters)
  end.

(** ** The [explorer] command: src/scripts/explorer.js *)

(** The options of one invocation ([env]); an option that takes a value is
    [None] when it was not given. *)
Record Env := {
  raw : bool;
  networkFee : bool;
  payoutFee : bool;
  totalSupply_option : option string
}.

(** The command object: what [run] reads of it. *)
Record Command := {
  argv_is_help : bool;      (* this.argv == 'help' *)
  command_api : NIS;        (* this.api *)
  version : string          (* this.npmPackage.version *)
}.

(** Lines 180-185. *)
Definition log (isRawMode : bool) (m : string) : Async unit :=
  if negb isRawMode then print (Log m) else mret tt.

(** Lines 194-208, without the formatting of the amount. *)
Definition outputResponse (isRawMode : bool) (resultTitle : string)
  (resultValue : Z) (currencySlug : string) : Async unit :=
  print (Output isRawMode resultTitle resultValue currencySlug).

(** Lines 170-172. *)
Definition end_ : Async unit := print Exit.

(** A string used as a condition: the empty string is falsy. *)
Definition truthy (o : option string) : option string :=
  match o with
  | Some EmptyString => None
  | _ => o
  end.

(** [this.explorer = new DIMExplorer(this.api)] *)
Definition new_explorer (fresh : DIMParameters.t) (api : NIS) : Async unit :=
  fun w =>
    (Returns tt,
     {| explorer := DIMExplorer.constructor fresh api; sent := sent w;
        console := console w |}).

(** Lines 98-163. [fresh] is what [new DIMParameters()] builds and [NEM]
    the nem-sdk module. The choice of the network and [this.api.connect()]
    (lines 117-121) belong to the base command and the API wrapper, which
    are not among the sources; they are left out. *)
Definition run (NEM : SDK) (fresh : DIMParameters.t) (this : Command) (env : Env)
  : Async unit :=
  let isRawMode := raw env in
  _ ← log isRawMode "";
  _ ← log isRawMode ("DIM Explorer v" ++ version this);
  _ ← log isRawMode "";
  if argv_is_help this then
    _ ← print Help;
    end_
  else
    _ ← new_explorer fresh (command_api this);
    _ ← (if networkFee env then
           totalLevy ← getTotalAvailableLevyAmount NEM;
           outputResponse isRawMode "Total Network Fee " totalLevy "dim:coin"
         else mret tt);
    _ ← (if payoutFee env then
           holdersShareLevy ← getTotalHoldersShareLevyAmount NEM;
           outputResponse isRawMode "Token Holder Fee Share: " holdersShareLevy "dim:coin"
         else mret tt);
    match truthy (totalSupply_option env) with
    | Some currency =>
        if negb (JS.matches currency) then
          _ ← print Help;
          end_
        else
          totalSupply ← getTotalCirculatingSupply currency;
          _ ← outputResponse isRawMode ("Total supply of '" ++ currency ++ "' is ")
                             totalSupply "dim:coin";
          end_
    | None => end_
    end.

(** ** Callers of the explorer *)

(** One call of a method of the explorer, and what it returns. *)
Inductive Call :=
| GetCurrency (currency : string)
| GetTotalHoldersShareLevyAmount
| GetTotalAvailableLevyAmount
| GetTotalCirculatingSupply (currency : string).

Inductive Value :=
| Parameters (p : option MosaicParameters)
| Amount (a : Z).

Definition call (NEM : SDK) (c : Call) : Async Value :=
  match c with
  | GetCurrency currency => p ← getCurrency currency; mret (Parameters p)
  | GetTotalHoldersShareLevyAmount => a ← getTotalHoldersShareLevyAmount NEM; mret (Amount a)
  | GetTotalAvailableLevyAmount => a ← getTotalAvailableLevyAmount NEM; mret (Amount a)
  | GetTotalCirculatingSupply currency => a ← getTotalCirculatingSupply currency; mret (Amount a)
  end.

(** A caller that makes one call after the other, however each settles. *)
Fixpoint calls (NEM : SDK) (cs : list Call) (w : World) : World :=
  match cs with
  | [] => w
  | c :: cs' => calls NEM cs' (snd (call NEM c w))
  end.

(** The registry cache of the explorer of a world. *)
Definition cache (w : World) : gmap string MosaicParameters :=
  DIMParameters.mosaicParameters (DIMExplorer.parameters (explorer w)).

(** The failure the node answers request [q] with after [history], if it
    rejects it. *)
Definition rejection (api : NIS) (history : list Request) (q : Request) : option string :=
  match q with
  | MosaicDefinitionsRequest nd ns =>
      match mosaicDefinitions (sdk api) history nd ns with
      | Rejected failure => Some failure
      | Fulfilled _ => None
      end
  | OwnedMosaicsRequest nd address =>
      match owned (sdk api) history nd address with
      | Rejected failure => Some failure
      | Fulfilled _ => None
      end
  end.

(** A run of [m] in [w] hands a transport failure on: the run sends nothing,
    or it sends one request, and if the node rejects that request the run
    throws the node's failure (it neither returns a value nor sends the
    request again). *)
Definition propagates {A : Type} (m : Async A) (w : World) : Prop :=
  sent (snd (m w)) = sent w \/
  exists q, sent (snd (m w)) = (sent w ++ [q])%list /\
    forall failure,
      rejection (DIMExplorer.api (explorer w)) (sent w) q = Some failure ->
      fst (m w) = Throws (TransportFailure failure).

(** What [run] logs before anything else. *)
Definition banner (this : Command) (env : Env) : list Event :=
  if raw env then []
  else [Log ""; Log ("DIM Explorer v" ++ version this); Log ""].

(** The first balance entry the loop of [getTotalAvailableLevyAmount] stops
    at: the first one that [NEM] formats as "dim:coin". *)
Definition dim_coin_entry (NEM : SDK) (mosaics : list OwnedMosaic) : option OwnedMosaic :=
  List.find (fun b => String.eqb (mosaicIdToName NEM (mosaicId b)) "dim:coin") mosaics.

(** The first definition the loop of [getCurrency] stops at. *)
Definition matching_definition (api : NIS) (currency : string)
  (definitions : list MosaicDefinition) : option MosaicDefinition :=
  List.find (fun d => String.eqb (mosaicIdToName (sdk api) (id d)) currency) definitions.

(** The world after one more request. *)
Definition after_request (q : Request) (w : World) : World :=
  {| explorer := explorer w; sent := sent w ++ [q]; console := console w |}.

(** ** Sample objects for the scenarios *)

Module Sample.

Definition levy_account : string := "NLEVYRECIPIENTACCOUNT".

Definition dim_coin : MosaicParameters :=
  {| identifier := "dim:coin"; totalSupply := 9000000000000000; divisibility := 6;
     levy := Some {| recipient := levy_account; fee := 10; levyMosaic := "dim:coin" |} |}.

(** The definition of dim:coin as the node reports it. *)
Definition dim_coin_definition : MosaicDefinition :=
  {| creator_key := "a1df5306355766bd"; description := "DIM COIN";
     id := {| namespaceId := "dim"; name := "coin" |};
     properties := [("divisibility", "6"); ("initialSupply", "9000000000")];
     definition_levy :=
       Some {| levy_type := 2; levy_recipient := levy_account;
               levy_mosaicId := {| namespaceId := "dim"; name := "coin" |};
               levy_fee := 10 |} |}.

(** A registry whose cache already holds dim:coin. *)
Definition registry : DIMParameters.t :=
  {| DIMParameters.mosaicParameters := {[ "dim:coin" := dim_coin ]};
     DIMParameters.getCoin := {| creator := "a1df5306355766bd" |};
     DIMParameters.fromMosaicDefinition := fun d =>
       {| identifier := nem_mosaicIdToName (id d); totalSupply := 9000000000000000;
          divisibility := 6; levy := levy dim_coin |} |}.

(** nem-sdk in front of a node that answers every definitions request with
    [definitions] and every balance request with [balances]. *)
Definition nem (definitions : Reply MosaicDefinition) (balances : Reply OwnedMosaic) : SDK :=
  {| mosaicIdToName := nem_mosaicIdToName;
     toAddress := fun publicKey _ => publicKey;
     mosaicDefinitions := fun _ _ _ => definitions;
     owned := fun _ _ _ => balances |}.

Definition api (definitions : Reply MosaicDefinition) (balances : Reply OwnedMosaic) : NIS :=
  {| sdk := nem definitions balances; node := "http://hugealice.nem.ninja:7890";
     networkId := 104 |}.

(** The world right after [new DIMExplorer(api)]. *)
Definition world (definitions : Reply MosaicDefinition) (balances : Reply OwnedMosaic) : World :=
  {| explorer := DIMExplorer.constructor registry (api definitions balances);
     sent := []; console := [] |}.

Definition balance (quantity : Z) : OwnedMosaic :=
  {| mosaicId := {| namespaceId := "dim"; name := "coin" |}; quantity := quantity |}.

Definition ok {A : Type} (l : list A) : Reply A := Fulfilled {| data := Some l |}.

Definition no_data {A : Type} : Reply A := Fulfilled {| data := None |}.

End Sample.

(** ** Notions used to state further properties *)

Module Text.

(** [s] holds a line terminator somewhere. *)
Fixpoint has_line_terminator (s : string) : bool :=
  match s with
  | EmptyString => false
  | String c s' => JS.isLineTerminator c || has_line_terminator s'
  end.

(** [s] is the text in front of a line: it is empty, or its last character
    is a line terminator. *)
Fixpoint ends_a_line (s : string) : bool :=
  match s with
  | EmptyString => true
  | String c s' =>
      match s' with
      | EmptyString => JS.isLineTerminator c
      | String _ _ => ends_a_line s'
      end
  end.

(** [s] is the text behind a line: it is empty, or its first character is
    a line terminator. *)
Definition starts_past_a_line (s : string) : bool :=
  match s with
  | EmptyString => true
  | String c _ => JS.isLineTerminator c
  end.

End Text.

(** The node a request is addressed to. *)
Definition request_node (q : Request) : Endpoint :=
  match q with
  | MosaicDefinitionsRequest nd _ => nd
  | OwnedMosaicsRequest nd _ => nd
  end.

(** The amount that the balance scan of lines 141-149 finds in a response. *)
Definition balance_in (NEM : SDK) (response : Response OwnedMosaic) : Z :=
  match dim_coin_entry NEM (default [] (data response)) with
  | Some b => quantity b
  | None => 0
  end.

Definition is_Log (ev : Event) : bool :=
  match ev with
  | Log _ => true
  | _ => false
  end.

Definition is_Exit (ev : Event) : bool :=
  match ev with
  | Exit => true
  | _ => false
  end.

(** The two amounts the command is able to print. *)
Definition is_levy_output (ev : Event) : bool :=
  match ev with
  | Output _ title _ slug =>
      (String.eqb title "Total Network Fee " || String.eqb title "Token Holder Fee Share: ")
      && String.eqb slug "dim:coin"
  | _ => true
  end.

(** A node whose balance of the levy recipient grows with every request it
    has answered. *)
Module Growing.

Definition nem : SDK :=
  {| mosaicIdToName := nem_mosaicIdToName;
     toAddress := fun publicKey _ => publicKey;
     mosaicDefinitions := fun _ _ _ => Sample.ok [];
     owned := fun history _ _ =>
       Sample.ok [Sample.balance (1000000 + 10 * Z.of_nat (length history))] |}.

Definition api : NIS :=
  {| sdk := nem; node := "http://hugealice.nem.ninja:7890"; networkId := 104 |}.

Definition world : World :=
  {| explorer := DIMExplorer.constructor Sample.registry api; sent := []; console := [] |}.

End Growing.

(** The world after the command has printed [evs]. *)
Definition with_console (evs : list Event) (w : World) : World :=
  {| explorer := explorer w; sent := sent w; console := console w ++ evs |}.

(** The world after [this.explorer = new DIMExplorer(this.api)]. *)
Definition with_explorer (e : DIMExplorer.t) (w : World) : World :=
  {| explorer := e; sent := sent w; console := console w |}.

(** A request for the balances of some account at node [nd]. *)
Definition is_balance_request_to (nd : Endpoint) (q : Request) : Prop :=
  exists address, q = OwnedMosaicsRequest nd address.

(** The levy step of the command for the option [flag]: call [m], print
    what it returns. *)
Definition levy_step (flag isRawMode : bool) (m : Async Z) (title : string) : Async unit :=
  if flag then
    amount ← m;
    outputResponse isRawMode title amount "dim:coin"
  else mret tt.

(** The last step of the command, for the option [--totalSupply]. *)
Definition supply_step (isRawMode : bool) (totalSupply_option : option string) : Async unit :=
  match truthy totalSupply_option with
  | Some currency =>
      if negb (JS.matches currency) then
        _ ← print Help;
        end_
      else
        totalSupply ← getTotalCirculatingSupply currency;
        _ ← outputResponse isRawMode ("Total supply of '" ++ currency ++ "' is ")
                           totalSupply "dim:coin";
        end_
  | None => end_
  end.

(** Events that are neither a log line nor the exit, and that print nothing
    but a levy amount. *)
Definition quiet (evs : list Event) : Prop :=
  Forall (fun ev => is_Log ev = false /\ is_Exit ev = false /\ is_levy_output ev = true) evs.

(** [m] behaves like a levy operation: it throws a [TypeError] and leaves
    the world, or it sends one balance request to the node of [this.api]
    and returns an amount or throws. *)
Definition levy_like (m : Async Z) : Prop :=
  forall w : World,
    m w = (Throws TypeError, w) \/
    exists address,
      let w' := after_request
                  (OwnedMosaicsRequest (node (DIMExplorer.api (explorer w))) address) w in
      (exists e, m w = (Throws e, w')) \/ (exists amount, m w = (Returns amount, w')).

Definition count (flag : bool) : nat := if flag then 1%nat else 0%nat.


(** A node on which the levy of dim:coin changes: the first definitions
    request is answered with a levy fee of 10, every later one with a fee
    of 20; and a registry with an empty cache whose [fromMosaicDefinition]
    takes the levy over from the definition. *)
Module Changing.

Definition definition (levy_fee : Z) : MosaicDefinition :=
  {| creator_key := "a1df5306355766bd"; description := "DIM COIN";
     id := {| namespaceId := "dim"; name := "coin" |};
     properties := [("divisibility", "6"); ("initialSupply", "9000000000")];
     definition_levy :=
       Some {| levy_type := 2; levy_recipient := Sample.levy_account;
               levy_mosaicId := {| namespaceId := "dim"; name := "coin" |};
               levy_fee := levy_fee |} |}.

Definition parameters (levy_fee : Z) : MosaicParameters :=
  {| identifier := "dim:coin"; totalSupply := 9000000000000000; divisibility := 6;
     levy := Some {| recipient := Sample.levy_account; fee := levy_fee;
                     levyMosaic := "dim:coin" |} |}.

Definition registry : DIMParameters.t :=
  {| DIMParameters.mosaicParameters := ∅;
     DIMParameters.getCoin := {| creator := "a1df5306355766bd" |};
     DIMParameters.fromMosaicDefinition := fun d =>
       {| identifier := nem_mosaicIdToName (id d); totalSupply := 9000000000000000;
          divisibility := 6;
          levy := match definition_levy d with
                  | Some l => Some {| recipient := levy_recipient l; fee := levy_fee l;
                                      levyMosaic := nem_mosaicIdToName (levy_mosaicId l) |}
                  | None => None
                  end |} |}.

Definition nem : SDK :=
  {| mosaicIdToName := nem_mosaicIdToName;
     toAddress := fun publicKey _ => publicKey;
     mosaicDefinitions := fun history _ _ =>
       match history with
       | [] => Sample.ok [definition 10]
       | _ :: _ => Sample.ok [definition 20]
       end;
     owned := fun _ _ _ => Sample.ok [] |}.

Definition api : NIS :=
  {| sdk := nem; node := "http://hugealice.nem.ninja:7890"; networkId := 104 |}.

(** The world right after [new DIMExplorer(api)]. *)
Definition world : World :=
  {| explorer := DIMExplorer.constructor registry api; sent := []; console := [] |}.


End Changing.

(** ** The formatting of an amount: explorer.js line 196 *)

From Stdlib Require Import DecimalString.

Module Fixed.

(** [x / y] on numbers. *)
Definition div (x y : spec_float) : spec_float := SFdiv JS.prec JS.emax x y.

(** [Math.pow(10, 6)]: the number 1000000. *)
Definition pow_10_6 : spec_float := JS.of_Z 1000000.

(** The decimal digits of a non-negative integer, without leading zeros. *)
Definition digits (n : Z) : string := NilZero.string_of_uint (N.to_uint (Z.to_N n)).

Fixpoint zeros (k : nat) : string :=
  match k with
  | O => EmptyString
  | S k' => String "0"%char (zeros k')
  end.

(** The last steps of [toFixed(6)]: the digits of [n], filled up with
    zeros to seven digits, with a point in front of the last six. *)
Definition point_6 (n : Z) : string :=
  let m := digits n in
  let k := String.length m in
  let m := if (k <=? 6)%nat then zeros (7 - k) ++ m else m in
  let k := String.length m in
  substring 0 (k - 6) m ++ "." ++ substring (k - 6) 6 m.

(** The integer [n] for which [n / 10^6 - x] is closest to zero, the larger
    one when there are two, for [x = m * 2^e]. *)
Definition nearest_millionths (m : positive) (e : Z) : Z :=
  if 0 <=? e then Z.pos m * 2 ^ e * 10 ^ 6
  else (2 * (Z.pos m * 10 ^ 6) + 2 ^ (- e)) / 2 ^ (- e + 1).

(** [x >= 10^21], for [x = m * 2^e]. *)
Definition at_least_10_21 (m : positive) (e : Z) : bool :=
  if 0 <=? e then 10 ^ 21 <=? Z.pos m * 2 ^ e
  else 10 ^ 21 * 2 ^ (- e) <=? Z.pos m.

(** [x.toFixed(6)]. From [10^21] on [toFixed] hands over to the general
    conversion of a number to a string, which is not modelled: [None]. *)
Definition toFixed_6 (x : spec_float) : option string :=
  match x with
  | S754_nan => Some "NaN"
  | S754_infinity false => Some "Infinity"
  | S754_infinity true => Some "-Infinity"
  | S754_zero _ => Some (point_6 0)
  | S754_finite s m e =>
      if at_least_10_21 m e then None
      else
        let n := nearest_millionths m e in
        Some ((if s then "-" else "") ++ point_6 n)
  end.

(** Line 196: [(resultValue / Math.pow(10, 6)).toFixed(6)]. *)
Definition formatted (resultValue : Z) : option string :=
  toFixed_6 (div (JS.of_Z resultValue) pow_10_6).

End Fixed.

(** ** Quotients and their rounding *)

(** The location of a quotient with remainder [r] by the even divisor [D]. *)
Definition div_location (D r : Z) : location :=
  if r =? 0 then loc_Exact else loc_Inexact (2 * r ?= D).

(** The quotient [q] with remainder [r], rounded to the nearest integer
    (ties to even). *)
Definition div_round (D q r : Z) : Z := round_nearest_even q (div_location D r).

(** * Properties *)

(** ** Binary64 multiplication by [0.3], in integer arithmetic *)

(** *** Bit lengths *)

(** [digits2_pos] is the bit length of the standard library. *)
Lemma digits2_pos_size (p : positive) : digits2_pos p = Pos.size p.
Proof. induction p; simpl; congruence. Qed.

Lemma digits2_pos_bounds (p : positive) :
  2 ^ (Z.pos (digits2_pos p) - 1) <= Z.pos p < 2 ^ Z.pos (digits2_pos p).
Proof.
  rewrite digits2_pos_size. split.
  - pose proof (Pos.size_le p) as H.
    assert (Hz : Z.pos (2 ^ Pos.size p) <= Z.pos p~0) by lia.
    rewrite Pos2Z.inj_pow in Hz.
    replace (Z.pos (Pos.size p)) with (Z.succ (Z.pos (Pos.size p) - 1)) in Hz by lia.
    rewrite Z.pow_succ_r in Hz by lia. lia.
  - pose proof (Pos.size_gt p) as H.
    assert (Hz : Z.pos p < Z.pos (2 ^ Pos.size p)) by lia.
    now rewrite Pos2Z.inj_pow in Hz.
Qed.

(** *** Shifting right, with the round and sticky bits *)

Lemma iter_pos_nat {A : Type} (f : A -> A) (p : positive) (x : A) :
  SpecFloat.iter_pos f p x = Nat.iter (Pos.to_nat p) f x.
Proof.
  revert x. induction p as [p IH | p IH |]; intros x; cbn [SpecFloat.iter_pos].
  - rewrite !IH, Pos2Nat.inj_xI.
    replace (2 * Pos.to_nat p)%nat with (Pos.to_nat p + Pos.to_nat p)%nat by lia.
    rewrite Nat.iter_succ_r, Nat.iter_add. reflexivity.
  - rewrite !IH, Pos2Nat.inj_xO.
    replace (2 * Pos.to_nat p)%nat with (Pos.to_nat p + Pos.to_nat p)%nat by lia.
    rewrite Nat.iter_add. reflexivity.
  - reflexivity.
Qed.

(** One step: halve, keep the bit that falls off, remember the earlier ones. *)
Lemma shr_1_nonneg (m : Z) (r s : bool) :
  0 <= m ->
  shr_1 {| shr_m := m; shr_r := r; shr_s := s |} =
  {| shr_m := m / 2; shr_r := Z.odd m; shr_s := r || s |}.
Proof.
  intros Hm. rewrite <- Z.div2_div.
  destruct m as [| [p | p |] | p]; try lia; reflexivity.
Qed.

(** After [j + 1] steps: the quotient, bit [j], and whether a lower bit was
    set. *)
Lemma shr_iter (M : Z) (j : nat) :
  0 <= M ->
  Nat.iter (S j) shr_1 {| shr_m := M; shr_r := false; shr_s := false |} =
  {| shr_m := M / 2 ^ Z.of_nat (S j);
     shr_r := Z.odd (M / 2 ^ Z.of_nat j);
     shr_s := negb (M mod 2 ^ Z.of_nat j =? 0) |}.
Proof.
  intros HM. induction j as [| j IH].
  - cbn [Nat.iter]. rewrite shr_1_nonneg by assumption.
    change (2 ^ Z.of_nat 1) with 2. change (2 ^ Z.of_nat 0) with 1.
    rewrite Z.div_1_r, Z.mod_1_r. reflexivity.
  - rewrite Nat.iter_succ, IH.
    assert (Hp : 0 < 2 ^ Z.of_nat j) by (apply Z.pow_pos_nonneg; lia).
    assert (Hp1 : 0 < 2 ^ Z.of_nat (S j)) by (apply Z.pow_pos_nonneg; lia).
    assert (Hs : 2 ^ Z.of_nat (S j) = 2 ^ Z.of_nat j * 2).
    { rewrite Nat2Z.inj_succ, Z.pow_succ_r by lia. lia. }
    assert (Hs2 : 2 ^ Z.of_nat (S (S j)) = 2 ^ Z.of_nat (S j) * 2).
    { rewrite (Nat2Z.inj_succ (S j)), Z.pow_succ_r by lia. lia. }
    rewrite shr_1_nonneg by (apply Z.div_pos; lia).
    f_equal.
    + rewrite Hs2, Z.div_div by lia. reflexivity.
    + rewrite Hs at 1.
      rewrite Z.rem_mul_r by lia.
      rewrite Zmod_odd.
      pose proof (Z.mod_pos_bound M (2 ^ Z.of_nat j) Hp) as Hb.
      destruct (Z.odd (M / 2 ^ Z.of_nat j)); simpl.
      * symmetry. apply Bool.negb_true_iff. apply Z.eqb_neq. lia.
      * rewrite Z.mul_0_r, Z.add_0_r. reflexivity.
Qed.

(** Rounding the shifted record to nearest even is [JS.rne_shift]. *)
Lemma shr_round (M : Z) (p : positive) :
  0 <= M ->
  let mrs := SpecFloat.iter_pos shr_1 p {| shr_m := M; shr_r := false; shr_s := false |} in
  shr_m mrs = M / 2 ^ Z.pos p /\
  round_nearest_even (shr_m mrs) (loc_of_shr_record mrs) = JS.rne_shift M (Z.pos p).
Proof.
  intros HM mrs. subst mrs. rewrite iter_pos_nat.
  destruct (Pos2Nat.is_succ p) as [j Hj]. rewrite Hj.
  rewrite shr_iter by assumption.
  assert (Hk : Z.pos p = Z.of_nat (S j)) by lia.
  rewrite Hk. split; [reflexivity |].
  cbn [shr_m]. unfold JS.rne_shift.
  assert (Hp : 0 < 2 ^ Z.of_nat j) by (apply Z.pow_pos_nonneg; lia).
  assert (Hs : 2 ^ Z.of_nat (S j) = 2 ^ Z.of_nat j * 2).
  { rewrite Nat2Z.inj_succ, Z.pow_succ_r by lia. lia. }
  set (low := M mod 2 ^ Z.of_nat j) in *.
  set (half := 2 ^ Z.of_nat j) in *.
  assert (Hr : M mod 2 ^ Z.of_nat (S j) =
               low + half * (if Z.odd (M / half) then 1 else 0)).
  { rewrite Hs at 1. rewrite Z.rem_mul_r by lia. now rewrite Zmod_odd. }
  pose proof (Z.mod_pos_bound M half Hp) as Hb. fold low in Hb.
  rewrite Hr, Hs.
  destruct (Z.odd (M / half)) eqn:Ho; destruct (low =? 0) eqn:Hz;
    cbn [negb loc_of_shr_record round_nearest_even];
    [apply Z.eqb_eq in Hz | apply Z.eqb_neq in Hz
     | apply Z.eqb_eq in Hz | apply Z.eqb_neq in Hz];
    match goal with
    | |- context [?a ?= ?b] => destruct (Z.compare_spec a b)
    end; try lia; reflexivity.
Qed.

(** The bit length through [Z.log2], and its uniqueness. *)
Lemma digits2_pos_log2 (p : positive) :
  Z.pos (digits2_pos p) = Z.log2 (Z.pos p) + 1.
Proof.
  pose proof (digits2_pos_bounds p) as [H1 H2].
  assert (Z.log2 (Z.pos p) = Z.pos (digits2_pos p) - 1); [| lia].
  apply Z.log2_unique; [lia |].
  replace (Z.succ (Z.pos (digits2_pos p) - 1)) with (Z.pos (digits2_pos p)) by lia.
  split; assumption.
Qed.

(** *** [binary_round_aux] on a positive integer, away from the subnormal
        and the overflow range *)

Lemma fexp_normal (e : Z) : -1021 <= e -> fexp 53 1024 e = e - 53.
Proof. intros H. unfold fexp, emin. lia. Qed.

Lemma rne_shift_bounds (M k : Z) :
  0 <= M -> 0 < k ->
  M / 2 ^ k <= JS.rne_shift M k <= M / 2 ^ k + 1.
Proof.
  intros HM Hk. unfold JS.rne_shift.
  destruct (2 * (M mod 2 ^ k) ?= 2 ^ k); [destruct (Z.even _) | |]; lia.
Qed.

(** A significand of 53 bits is kept as it is. *)
Lemma binary_round_aux_exact (sx : bool) (mx : positive) (ex : Z) :
  Z.pos (digits2_pos mx) = 53 -> -1021 <= 53 + ex -> ex <= 971 ->
  binary_round_aux 53 1024 sx (Z.pos mx) ex loc_Exact = S754_finite sx mx ex.
Proof.
  intros Hd He1 He2.
  unfold binary_round_aux, shr_fexp. cbn [Zdigits2].
  rewrite Hd, fexp_normal by lia.
  replace (53 + ex - 53 - ex) with 0 by lia.
  cbn [shr shr_record_of_loc shr_m loc_of_shr_record round_nearest_even Zdigits2].
  rewrite Hd, fexp_normal by lia.
  replace (53 + ex - 53 - ex) with 0 by lia.
  cbn [shr shr_record_of_loc shr_m].
  replace (ex <=? 1024 - 53) with true; [reflexivity |].
  symmetry. apply Z.leb_le. lia.
Qed.

Lemma digits2_pos_unique (p : positive) (d : Z) :
  2 ^ (d - 1) <= Z.pos p < 2 ^ d -> Z.pos (digits2_pos p) = d.
Proof.
  intros [H1 H2]. rewrite digits2_pos_log2.
  assert (0 < d).
  { destruct (Z.le_gt_cases d 0) as [Hd |]; [| assumption].
    assert (2 ^ d <= 2 ^ 0) by (apply Z.pow_le_mono_r; lia).
    change (2 ^ 0) with 1 in *. lia. }
  assert (Z.log2 (Z.pos p) = d - 1); [| lia].
  apply Z.log2_unique; [lia |].
  replace (Z.succ (d - 1)) with d by lia. split; assumption.
Qed.

Lemma quotient_bounds (mx p : positive) :
  Z.pos (digits2_pos mx) = 53 + Z.pos p ->
  2 ^ 52 <= Z.pos mx / 2 ^ Z.pos p < 2 ^ 53.
Proof.
  intros Hd. pose proof (digits2_pos_bounds mx) as [H1 H2].
  rewrite Hd in H1, H2.
  assert (Hp : 0 < 2 ^ Z.pos p) by (apply Z.pow_pos_nonneg; lia).
  replace (53 + Z.pos p - 1) with (52 + Z.pos p) in H1 by lia.
  rewrite Z.pow_add_r in H1, H2 by lia.
  split.
  - apply Z.div_le_lower_bound; lia.
  - apply Z.div_lt_upper_bound; lia.
Qed.

(** A significand of [53 + p] bits loses [p] bits by rounding to nearest
    even; when the rounding carries into a 54th bit, one more. *)
Lemma binary_round_aux_round (sx : bool) (mx p : positive) (ex : Z) :
  Z.pos (digits2_pos mx) = 53 + Z.pos p ->
  -1021 <= 53 + Z.pos p + ex -> 53 + Z.pos p + ex <= 1023 ->
  exists m' e',
    binary_round_aux 53 1024 sx (Z.pos mx) ex loc_Exact = S754_finite sx m' e' /\
    ex + Z.pos p <= e' <= ex + Z.pos p + 1 /\
    Z.pos m' * 2 ^ (e' - ex) = JS.rne_shift (Z.pos mx) (Z.pos p) * 2 ^ Z.pos p.
Proof.
  intros Hd He1 He2.
  pose proof (quotient_bounds mx p Hd) as Hq.
  pose proof (rne_shift_bounds (Z.pos mx) (Z.pos p) ltac:(lia) ltac:(lia)) as Hb.
  destruct (shr_round (Z.pos mx) p ltac:(lia)) as [_ Hr].
  unfold binary_round_aux, shr_fexp. cbn [Zdigits2].
  rewrite Hd, fexp_normal by lia.
  replace (53 + Z.pos p + ex - 53 - ex) with (Z.pos p) by lia.
  cbn [shr shr_record_of_loc]. rewrite Hr.
  set (m2 := JS.rne_shift (Z.pos mx) (Z.pos p)) in *.
  assert (Hm2 : 2 ^ 52 <= m2 <= 2 ^ 53) by lia.
  change (2 ^ 52) with 4503599627370496 in Hm2.
  change (2 ^ 53) with 9007199254740992 in Hm2.
  destruct m2 as [| pm | pm] eqn:Em2; try (exfalso; lia).
  cbn [Zdigits2].
  destruct (Z.eq_dec (Z.pos pm) (2 ^ 53)) as [Hc | Hc].
  - (* the rounded mantissa carries into a 54th bit *)
    assert (Hpm : pm = 9007199254740992%positive).
    { change (2 ^ 53) with 9007199254740992 in Hc. congruence. }
    subst pm.
    change (Z.pos (digits2_pos 9007199254740992)) with 54.
    rewrite fexp_normal by lia.
    replace (54 + (ex + Z.pos p) - 53 - (ex + Z.pos p)) with 1 by lia.
    cbn [shr SpecFloat.iter_pos shr_1 shr_m].
    replace (ex + Z.pos p + 1 <=? 1024 - 53) with true
      by (symmetry; apply Z.leb_le; lia).
    exists 4503599627370496%positive, (ex + Z.pos p + 1).
    split; [reflexivity |]. split; [lia |].
    replace (ex + Z.pos p + 1 - ex) with (Z.succ (Z.pos p)) by lia.
    rewrite Z.pow_succ_r by lia. lia.
  - assert (Hdm : Z.pos (digits2_pos pm) = 53).
    { apply digits2_pos_unique. change (2 ^ (53 - 1)) with 4503599627370496.
      change (2 ^ 53) with 9007199254740992 in *. lia. }
    rewrite Hdm, fexp_normal by lia.
    replace (53 + (ex + Z.pos p) - 53 - (ex + Z.pos p)) with 0 by lia.
    cbn [shr shr_m].
    replace (ex + Z.pos p <=? 1024 - 53) with true
      by (symmetry; apply Z.leb_le; lia).
    exists pm, (ex + Z.pos p).
    split; [reflexivity |]. split; [lia |].
    replace (ex + Z.pos p - ex) with (Z.pos p) by lia. reflexivity.
Qed.

(** *** The amount as a number, and its product with [0.3] *)

Lemma pos_iter_xO (m d : positive) :
  Z.pos (Pos.iter xO m d) = Z.pos m * 2 ^ Z.pos d.
Proof.
  induction d as [| d IH] using Pos.peano_ind.
  - cbn [Pos.iter]. rewrite Pos2Z.inj_xO. change (2 ^ 1) with 2. lia.
  - rewrite Pos.iter_succ, Pos2Z.inj_xO, IH, Pos2Z.inj_succ, Z.pow_succ_r by lia. lia.
Qed.

(** A safe integer is represented exactly, with a significand of 53 bits. *)
Lemma of_Z_normal (n : Z) :
  1 <= n < 2 ^ 53 ->
  exists mn c,
    JS.of_Z n = S754_finite false mn (- c) /\ 0 <= c <= 52 /\
    Z.pos mn = n * 2 ^ c /\ Z.pos (digits2_pos mn) = 53.
Proof.
  intros Hn. destruct n as [| pn | pn]; try lia.
  unfold JS.of_Z, binary_normalize, binary_round.
  pose proof (digits2_pos_bounds pn) as [Hb1 Hb2].
  set (dn := Z.pos (digits2_pos pn)) in *.
  assert (Hdn : 1 <= dn <= 53).
  { split; [subst dn; lia |].
    destruct (Z.le_gt_cases dn 53) as [| Hgt]; [assumption |].
    assert (2 ^ 53 <= 2 ^ (dn - 1)) by (apply Z.pow_le_mono_r; lia). lia. }
  rewrite fexp_normal by lia. unfold shl_align.
  replace (dn + 0 - 53 - 0) with (dn - 53) by lia.
  destruct (dn - 53) as [| d | d] eqn:Ed; try lia.
  - exists pn, 0. rewrite binary_round_aux_exact by (fold dn; lia).
    split; [reflexivity |]. split; [lia |].
    split; [change (2 ^ 0) with 1; lia |]. unfold dn in Ed. lia.
  - assert (Hm : Z.pos (Pos.iter xO pn d) = Z.pos pn * 2 ^ Z.pos d) by apply pos_iter_xO.
    assert (Hp : 0 < 2 ^ Z.pos d) by (apply Z.pow_pos_nonneg; lia).
    assert (Hd : Z.pos (digits2_pos (Pos.iter xO pn d)) = 53).
    { apply digits2_pos_unique. rewrite Hm.
      assert (E1 : 2 ^ (53 - 1) = 2 ^ (dn - 1) * 2 ^ Z.pos d).
      { rewrite <- Z.pow_add_r by lia. f_equal. lia. }
      assert (E2 : 2 ^ 53 = 2 ^ dn * 2 ^ Z.pos d).
      { rewrite <- Z.pow_add_r by lia. f_equal. lia. }
      rewrite E1, E2. split.
      - apply Z.mul_le_mono_nonneg_r; lia.
      - apply Z.mul_lt_mono_pos_r; lia. }
    exists (Pos.iter xO pn d), (Z.pos d).
    replace (dn + 0 - 53) with (Z.neg d) by lia.
    rewrite binary_round_aux_exact by lia.
    repeat split; try lia; assumption.
Qed.

(** Scaling by a power of two moves the rounding position along. *)
Lemma rne_shift_scale (P k c : Z) :
  0 <= P -> 0 <= k -> 0 <= c ->
  JS.rne_shift (P * 2 ^ c) (k + c) = JS.rne_shift P k.
Proof.
  intros HP Hk Hc. unfold JS.rne_shift.
  assert (Hpk : 0 < 2 ^ k) by (apply Z.pow_pos_nonneg; lia).
  assert (Hpc : 0 < 2 ^ c) by (apply Z.pow_pos_nonneg; lia).
  rewrite Z.pow_add_r by lia.
  rewrite Z.div_mul_cancel_r by lia.
  rewrite Z.mul_mod_distr_r by lia.
  replace (2 * (P mod 2 ^ k * 2 ^ c)) with (2 * (P mod 2 ^ k) * 2 ^ c) by lia.
  rewrite <- Zmult_compare_compat_r by lia.
  reflexivity.
Qed.

Lemma lit_0_3_eq : JS.lit_0_3 = S754_finite false JS.m_0_3 (-54).
Proof. vm_compute. reflexivity. Qed.

(** The product is finite: its significand times [2^(e' + 54)] is the
    integer product rounded to 53 bits. *)
Lemma mul_lit_0_3_normal (n : Z) :
  1 <= n < 2 ^ 53 ->
  exists m' e',
    JS.mul JS.lit_0_3 (JS.of_Z n) = S754_finite false m' e' /\
    -54 <= e' /\
    Z.pos m' * 2 ^ (e' + 54) = JS.RN53 (Z.pos JS.m_0_3 * n).
Proof.
  intros Hn.
  destruct (of_Z_normal n Hn) as (mn & c & Hof & Hc & Hmn & Hdn).
  rewrite Hof, lit_0_3_eq. unfold JS.mul, SFmul. cbn [xorb].
  pose proof (digits2_pos_bounds mn) as [Hn1 Hn2]. rewrite Hdn in Hn1, Hn2.
  change (53 - 1) with 52 in Hn1.
  pose proof (digits2_pos_bounds (JS.m_0_3 * mn)) as [Hb1 Hb2].
  set (d := Z.pos (digits2_pos (JS.m_0_3 * mn))) in *.
  rewrite Pos2Z.inj_mul in Hb1, Hb2.
  assert (Hm3 : 2 ^ 52 <= Z.pos JS.m_0_3 < 2 ^ 53) by (split; [discriminate | reflexivity]).
  assert (Hlo : 2 ^ 104 <= Z.pos JS.m_0_3 * Z.pos mn).
  { change (2 ^ 104) with (2 ^ 52 * 2 ^ 52). nia. }
  assert (Hhi : Z.pos JS.m_0_3 * Z.pos mn < 2 ^ 106).
  { change (2 ^ 106) with (2 ^ 53 * 2 ^ 53). nia. }
  assert (Hd : 105 <= d <= 106).
  { split.
    - destruct (Z.le_gt_cases 105 d) as [| Hlt]; [assumption |].
      assert (2 ^ d <= 2 ^ 104) by (apply Z.pow_le_mono_r; lia). lia.
    - destruct (Z.le_gt_cases d 106) as [| Hgt]; [assumption |].
      assert (2 ^ 106 <= 2 ^ (d - 1)) by (apply Z.pow_le_mono_r; lia). lia. }
  destruct (d - 53) as [| p | p] eqn:Ep; try lia.
  destruct (binary_round_aux_round false (JS.m_0_3 * mn) p (-54 + - c))
    as (m' & e' & Hbra & He' & Hval); [fold d; lia | lia | lia |].
  exists m', e'. split; [exact Hbra |].
  (* the product of the integers, before the operand was normalised *)
  set (P := Z.pos JS.m_0_3 * n) in *.
  assert (HP : 2 ^ 52 <= P) by (subst P; nia).
  assert (Hk : Z.log2 P = d - 1 - c).
  { apply Z.log2_unique; [lia |].
    assert (Hpc : 0 < 2 ^ c) by (apply Z.pow_pos_nonneg; lia).
    assert (Hprod : Z.pos JS.m_0_3 * Z.pos mn = P * 2 ^ c) by (subst P; rewrite Hmn; ring).
    rewrite Hprod in Hb1, Hb2.
    assert (E1 : 2 ^ (d - 1) = 2 ^ (d - 1 - c) * 2 ^ c).
    { rewrite <- Z.pow_add_r by lia. f_equal. lia. }
    assert (E2 : 2 ^ d = 2 ^ Z.succ (d - 1 - c) * 2 ^ c).
    { rewrite <- Z.pow_add_r by lia. f_equal. lia. }
    rewrite E1 in Hb1. rewrite E2 in Hb2.
    split.
    - apply (Z.mul_le_mono_pos_r _ _ (2 ^ c)); assumption.
    - apply (Z.mul_lt_mono_pos_r (2 ^ c)); assumption. }
  assert (Hk0 : 0 <= Z.log2 P - 52).
  { assert (Z.log2 (2 ^ 52) <= Z.log2 P) by (apply Z.log2_le_mono; assumption).
    rewrite Z.log2_pow2 in H by lia. lia. }
  assert (Hrn : JS.rne_shift (Z.pos (JS.m_0_3 * mn)) (Z.pos p) * 2 ^ Z.pos p = JS.RN53 P * 2 ^ c).
  { rewrite Pos2Z.inj_mul.
    replace (Z.pos JS.m_0_3 * Z.pos mn) with (P * 2 ^ c) by (subst P; rewrite Hmn; ring).
    replace (Z.pos p) with (Z.log2 P - 52 + c) by lia.
    rewrite rne_shift_scale by lia.
    unfold JS.RN53. destruct (Z.log2 P - 52 <=? 0) eqn:El.
    - apply Z.leb_le in El. replace (Z.log2 P - 52) with 0 by lia.
      unfold JS.rne_shift. change (2 ^ 0) with 1.
      rewrite Z.div_1_r, Z.mod_1_r, Z.add_0_l.
      change (2 * 0 ?= 1) with Lt. cbv iota. reflexivity.
    - rewrite Z.pow_add_r by lia. ring. }
  split; [lia |].
  rewrite Hrn in Hval.
  replace (e' - (-54 + - c)) with (e' + 54 + c) in Hval by lia.
  rewrite Z.pow_add_r in Hval by lia.
  assert (Hpc : 0 < 2 ^ c) by (apply Z.pow_pos_nonneg; lia).
  nia.
Qed.

(** [Math.ceil(0.3 * n)] in integer arithmetic. *)
Lemma Math_ceil_mul_lit_0_3 (n : Z) :
  0 <= n < 2 ^ 53 ->
  JS.Math_ceil (JS.mul JS.lit_0_3 (JS.of_Z n)) = - ((- JS.RN53 (Z.pos JS.m_0_3 * n)) / 2 ^ 54).
Proof.
  intros Hn. destruct (Z.eq_dec n 0) as [-> | Hnz].
  - reflexivity.
  - destruct (mul_lit_0_3_normal n ltac:(lia)) as (m' & e' & Hmul & He & Hval).
    rewrite Hmul, <- Hval. unfold JS.Math_ceil.
    destruct (0 <=? e') eqn:E.
    + apply Z.leb_le in E. rewrite Z.pow_add_r by lia.
      replace (- (Z.pos m' * (2 ^ e' * 2 ^ 54))) with (- (Z.pos m' * 2 ^ e') * 2 ^ 54) by ring.
      rewrite Z.div_mul by discriminate. lia.
    + apply Z.leb_gt in E.
      replace (2 ^ 54) with (2 ^ (e' + 54) * 2 ^ (- e')).
      2:{ rewrite <- Z.pow_add_r by lia. f_equal. lia. }
      replace (- (Z.pos m' * 2 ^ (e' + 54))) with (2 ^ (e' + 54) * (- Z.pos m')) by ring.
      assert (0 < 2 ^ (e' + 54)) by (apply Z.pow_pos_nonneg; lia).
      assert (0 < 2 ^ (- e')) by (apply Z.pow_pos_nonneg; lia).
      rewrite Z.div_mul_cancel_l by lia. reflexivity.
Qed.

(** *** The order of the rounded values *)

Lemma rne_shift_mono (k P1 P2 : Z) :
  0 <= k -> 0 <= P1 <= P2 -> JS.rne_shift P1 k <= JS.rne_shift P2 k.
Proof.
  intros Hk HP.
  assert (Hp : 0 < 2 ^ k) by (apply Z.pow_pos_nonneg; lia).
  assert (Hq : P1 / 2 ^ k <= P2 / 2 ^ k) by (apply Z.div_le_mono; lia).
  destruct (Z.eq_dec k 0) as [-> | Hk0].
  { unfold JS.rne_shift. change (2 ^ 0) with 1. rewrite !Z.div_1_r, !Z.mod_1_r.
    change (2 * 0 ?= 1) with Lt. cbv iota. lia. }
  pose proof (rne_shift_bounds P1 k ltac:(lia) ltac:(lia)) as B1.
  pose proof (rne_shift_bounds P2 k ltac:(lia) ltac:(lia)) as B2.
  destruct (Z.eq_dec (P1 / 2 ^ k) (P2 / 2 ^ k)) as [Heq | Hne]; [| lia].
  pose proof (Z.div_mod P1 (2 ^ k) ltac:(lia)) as D1.
  pose proof (Z.div_mod P2 (2 ^ k) ltac:(lia)) as D2.
  assert (Hr : P1 mod 2 ^ k <= P2 mod 2 ^ k) by (rewrite Heq in D1; lia).
  unfold JS.rne_shift. rewrite <- Heq.
  destruct (Z.compare_spec (2 * (P1 mod 2 ^ k)) (2 ^ k));
    destruct (Z.compare_spec (2 * (P2 mod 2 ^ k)) (2 ^ k));
    try lia; destruct (Z.even (P1 / 2 ^ k)); lia.
Qed.

(** Where a value with at least 53 bits lies: between the two neighbouring
    multiples of the spacing of its binade. *)
Lemma RN53_bounds (P : Z) :
  2 ^ 53 <= P ->
  let k := Z.log2 P - 52 in
  0 < k /\ JS.RN53 P = JS.rne_shift P k * 2 ^ k /\
  2 ^ 52 <= P / 2 ^ k < 2 ^ 53 /\
  P / 2 ^ k * 2 ^ k <= JS.RN53 P <= (P / 2 ^ k + 1) * 2 ^ k.
Proof.
  intros HP k.
  assert (Hl : 53 <= Z.log2 P).
  { assert (Z.log2 (2 ^ 53) <= Z.log2 P) by (apply Z.log2_le_mono; assumption).
    rewrite Z.log2_pow2 in H by lia. assumption. }
  assert (Hk : 0 < k) by (subst k; lia).
  assert (Hp : 0 < 2 ^ k) by (apply Z.pow_pos_nonneg; lia).
  destruct (Z.log2_spec P ltac:(lia)) as [L1 L2].
  assert (E1 : 2 ^ Z.log2 P = 2 ^ 52 * 2 ^ k).
  { rewrite <- Z.pow_add_r by lia. f_equal. subst k. lia. }
  assert (E2 : 2 ^ Z.succ (Z.log2 P) = 2 ^ 53 * 2 ^ k).
  { rewrite <- Z.pow_add_r by lia. f_equal. subst k. lia. }
  rewrite E1 in L1. rewrite E2 in L2.
  assert (Hrn : JS.RN53 P = JS.rne_shift P k * 2 ^ k).
  { unfold JS.RN53. fold k. destruct (k <=? 0) eqn:E; [apply Z.leb_le in E; lia | reflexivity]. }
  split; [assumption |]. split; [assumption |]. split.
  - split.
    + apply Z.div_le_lower_bound; lia.
    + apply Z.div_lt_upper_bound; lia.
  - rewrite Hrn.
    pose proof (rne_shift_bounds P k ltac:(lia) Hk).
    split; apply Z.mul_le_mono_nonneg_r; lia.
Qed.

Lemma RN53_small (P : Z) : 0 <= P < 2 ^ 53 -> JS.RN53 P = P.
Proof.
  intros HP. unfold JS.RN53.
  destruct (Z.eq_dec P 0) as [-> | Hnz]; [reflexivity |].
  assert (Z.log2 P < 53) by (apply Z.log2_lt_pow2; lia).
  destruct (Z.log2 P - 52 <=? 0) eqn:E; [reflexivity | apply Z.leb_gt in E; lia].
Qed.

(** Rounding to nearest is monotone. *)
Lemma RN53_mono (P1 P2 : Z) : 0 <= P1 <= P2 -> JS.RN53 P1 <= JS.RN53 P2.
Proof.
  intros HP.
  destruct (Z.lt_ge_cases P1 (2 ^ 53)) as [S1 | B1].
  - rewrite (RN53_small P1) by lia.
    destruct (Z.lt_ge_cases P2 (2 ^ 53)) as [S2 | B2].
    + rewrite (RN53_small P2) by lia. lia.
    + destruct (RN53_bounds P2 B2) as (Hk & _ & Hq & Hr & _).
      assert (Hp : 2 ^ 1 <= 2 ^ (Z.log2 P2 - 52)) by (apply Z.pow_le_mono_r; lia).
      change (2 ^ 1) with 2 in Hp.
      change (2 ^ 53) with (2 ^ 52 * 2) in S1. nia.
  - assert (B2 : 2 ^ 53 <= P2) by lia.
    destruct (RN53_bounds P1 B1) as (Hk1 & E1 & Hq1 & _ & Hr1).
    destruct (RN53_bounds P2 B2) as (Hk2 & E2 & Hq2 & Hr2 & _).
    assert (Hl : Z.log2 P1 <= Z.log2 P2) by (apply Z.log2_le_mono; lia).
    set (k1 := Z.log2 P1 - 52) in *. set (k2 := Z.log2 P2 - 52) in *.
    destruct (Z.eq_dec k1 k2) as [Ek | Nk].
    + rewrite E1, E2, <- Ek.
      apply Z.mul_le_mono_nonneg_r; [apply Z.pow_nonneg; lia |].
      apply rne_shift_mono; lia.
    + assert (Hp1 : 0 < 2 ^ k1) by (apply Z.pow_pos_nonneg; lia).
      assert (Hpp : 2 ^ k1 * 2 <= 2 ^ k2).
      { replace (2 ^ k1 * 2) with (2 ^ (Z.succ k1)) by (rewrite Z.pow_succ_r; lia).
        apply Z.pow_le_mono_r; lia. }
      change (2 ^ 53) with (2 ^ 52 * 2) in Hq1. nia.
Qed.

Lemma RN53_nonneg (P : Z) : 0 <= P -> 0 <= JS.RN53 P.
Proof.
  intros HP. pose proof (RN53_mono 0 P ltac:(lia)) as H.
  rewrite (RN53_small 0) in H by (split; [lia | reflexivity]). assumption.
Qed.

(** The rounded value is within half a spacing of the value. *)
Lemma RN53_near (P : Z) :
  2 ^ 53 <= P -> 2 * P - 2 ^ (Z.log2 P - 52) <= 2 * JS.RN53 P.
Proof.
  intros HP. destruct (RN53_bounds P HP) as (Hk & E & _ & _).
  set (k := Z.log2 P - 52) in *. rewrite E. unfold JS.rne_shift.
  assert (Hp : 0 < 2 ^ k) by (apply Z.pow_pos_nonneg; lia).
  pose proof (Z.div_mod P (2 ^ k) ltac:(lia)) as D.
  pose proof (Z.mod_pos_bound P (2 ^ k) Hp) as B.
  destruct (Z.compare_spec (2 * (P mod 2 ^ k)) (2 ^ k));
    [destruct (Z.even (P / 2 ^ k)) | |]; nia.
Qed.

(** Rounding does not cross a multiple of [2^54] above the value. *)
Lemma RN53_le_multiple (P c : Z) :
  0 <= P < c * 2 ^ 54 -> P < 2 ^ 106 -> JS.RN53 P <= c * 2 ^ 54.
Proof.
  intros HP Hlt.
  destruct (Z.lt_ge_cases P (2 ^ 53)) as [S | B].
  - rewrite RN53_small by lia. lia.
  - destruct (RN53_bounds P B) as (Hk & _ & Hq & _ & Hr).
    set (k := Z.log2 P - 52) in *.
    assert (Hk54 : k <= 53).
    { assert (Z.log2 P < 106); [| subst k; lia].
      apply Z.log2_lt_pow2; lia. }
    assert (Hp : 0 < 2 ^ k) by (apply Z.pow_pos_nonneg; lia).
    assert (E : 2 ^ 54 = 2 ^ (54 - k) * 2 ^ k).
    { rewrite <- Z.pow_add_r by lia. f_equal. lia. }
    assert (Hp' : 0 < 2 ^ (54 - k)) by (apply Z.pow_pos_nonneg; lia).
    assert (Hlt' : P / 2 ^ k < c * 2 ^ (54 - k)).
    { apply Z.div_lt_upper_bound; [assumption |]. rewrite E in HP. lia. }
    rewrite E. nia.
Qed.

(** So the rounded product of [0.3] and [n] stays at or below [n * 2^54]. *)
Lemma RN53_product_le (n : Z) :
  0 <= n < 2 ^ 53 -> JS.RN53 (Z.pos JS.m_0_3 * n) <= n * 2 ^ 54.
Proof.
  intros Hn. destruct (Z.eq_dec n 0) as [-> | Hnz]; [discriminate |].
  change (2 ^ 53) with 9007199254740992 in Hn.
  apply RN53_le_multiple; unfold JS.m_0_3.
  - change (2 ^ 54) with 18014398509481984. lia.
  - change (2 ^ 106) with 81129638414606681695789005144064. lia.
Qed.

Lemma ceil_div_unique (R B c : Z) :
  0 < B -> (c - 1) * B < R <= c * B -> - ((- R) / B) = c.
Proof.
  intros HB H.
  assert ((- R) / B = - c); [| lia].
  symmetry. apply (Z.div_unique (- R) B (- c) (c * B - R)); lia.
Qed.

(** Below [3 * 2^50] the rounded product still rounds up to the ceiling of
    three tenths. *)
Lemma ceil_RN53_exact (n : Z) :
  0 <= n < 3 * 2 ^ 50 ->
  - ((- JS.RN53 (Z.pos JS.m_0_3 * n)) / 2 ^ 54) = - ((- (3 * n)) / 10).
Proof.
  intros Hn.
  destruct (Z.eq_dec n 0) as [-> | Hnz]; [reflexivity |].
  set (c := - ((- (3 * n)) / 10)).
  assert (Hc : 10 * (c - 1) < 3 * n <= 10 * c).
  { pose proof (Z.div_mod (- (3 * n)) 10 ltac:(lia)) as D.
    pose proof (Z.mod_pos_bound (- (3 * n)) 10 ltac:(lia)) as B.
    subst c. lia. }
  set (P := Z.pos JS.m_0_3 * n).
  assert (HP : P = 5404319552844595 * n) by reflexivity.
  change (2 ^ 50) with 1125899906842624 in Hn.
  apply ceil_div_unique; [reflexivity |]. split.
  - destruct (Z.lt_ge_cases P (2 ^ 53)) as [S | B].
    + rewrite RN53_small by lia.
      change (2 ^ 54) with 18014398509481984. lia.
    + pose proof (RN53_near P B) as Hnear.
      assert (Hlog : Z.log2 P < 104).
      { apply Z.log2_lt_pow2; [lia |].
        change (2 ^ 104) with 20282409603651670423947251286016. lia. }
      assert (Hpow : 2 ^ (Z.log2 P - 52) <= 2 ^ 51) by (apply Z.pow_le_mono_r; lia).
      change (2 ^ 51) with 2251799813685248 in Hpow.
      change (2 ^ 54) with 18014398509481984. lia.
  - apply RN53_le_multiple.
    + change (2 ^ 54) with 18014398509481984. lia.
    + change (2 ^ 106) with 81129638414606681695789005144064. lia.
Qed.

(** ** The methods of the explorer, step by step *)

Lemma bind_run {A B : Type} (c : Async A) (k : A -> Async B) (w : World) :
  (c ≫= k) w =
  match c w with
  | (Returns a, w') => k a w'
  | (Throws e, w') => (Throws e, w')
  end.
Proof. reflexivity. Qed.

(** *** [getCurrency] *)

(** Line 81 on an explorer without a [mosaicParameters] property of its
    own: [this.mosaicParameters] is undefined and the call of
    [hasOwnProperty] on it throws. Nothing has been sent by then. *)
Lemma getCurrency_undefined (currency : string) (w : World) :
  DIMExplorer.mosaicParameters (explorer w) = None ->
  getCurrency currency w = (Throws TypeError, w).
Proof.
  intros H. unfold getCurrency. rewrite bind_run. cbn [self].
  rewrite bind_run, H. reflexivity.
Qed.

(** Every explorer that the constructor builds is such an explorer. *)
Lemma getCurrency_constructed (fresh : DIMParameters.t) (NIS : NIS)
  (s : list Request) (c : list Event) (currency : string) :
  let w := {| explorer := DIMExplorer.constructor fresh NIS; sent := s; console := c |} in
  getCurrency currency w = (Throws TypeError, w).
Proof. intros w. apply getCurrency_undefined. reflexivity. Qed.

(** The world after [this.parameters.mosaicParameters[currency] = params]. *)
Lemma store_run (currency : string) (params : MosaicParameters) (w : World) :
  store currency params w =
  (Returns tt,
   {| explorer := DIMExplorer.set_parameters
                    (DIMParameters.store currency params (DIMExplorer.parameters (explorer w)))
                    (explorer w);
      sent := sent w; console := console w |}).
Proof. reflexivity. Qed.

(** The loop of lines 93-101 stops at the first definition whose formatted
    name is the identifier, stores its translation and returns it; without
    such a definition it returns [null] and leaves the world as it is. *)
Lemma getCurrency_loop_run (currency : string) (definitions : list MosaicDefinition)
  (w : World) :
  getCurrency_loop currency definitions w =
  match matching_definition (DIMExplorer.api (explorer w)) currency definitions with
  | Some d =>
      let params := DIMParameters.fromMosaicDefinition (DIMExplorer.parameters (explorer w)) d in
      (Returns (Some params), snd (store currency params w))
  | None => (Returns None, w)
  end.
Proof.
  induction definitions as [| d rest IH]; [reflexivity |].
  cbn [getCurrency_loop]. rewrite bind_run. cbn [self].
  unfold matching_definition in *. cbn [find].
  destruct (String.eqb (mosaicIdToName (sdk (DIMExplorer.api (explorer w))) (id d)) currency);
    cbn [negb]; [reflexivity | exact IH].
Qed.

(** Past line 81, for an explorer that does have a [mosaicParameters]
    property [own]: a hit in [own] returns the entry and sends nothing. *)
Lemma getCurrency_hit (currency : string) (w : World)
  (own : gmap string MosaicParameters) (cached : MosaicParameters) :
  DIMExplorer.mosaicParameters (explorer w) = Some own ->
  own !! currency = Some cached ->
  getCurrency currency w = (Returns (Some cached), w).
Proof.
  intros H Hc. unfold getCurrency. rewrite bind_run. cbn [self].
  rewrite bind_run, H. cbn [deref]. unfold mret, Async_ret. rewrite Hc. reflexivity.
Qed.

(** Past line 81, on a miss in [own]: one request for the namespace that
    [replace] cuts out of the identifier, then the loop, or the failure. *)
Lemma getCurrency_miss (currency : string) (w : World)
  (own : gmap string MosaicParameters) :
  DIMExplorer.mosaicParameters (explorer w) = Some own ->
  own !! currency = None ->
  let api := DIMExplorer.api (explorer w) in
  let q := MosaicDefinitionsRequest (node api) (JS.replace_1 currency) in
  getCurrency currency w =
  match mosaicDefinitions (sdk api) (sent w) (node api) (JS.replace_1 currency) with
  | Fulfilled response =>
      getCurrency_loop currency (default [] (data response)) (after_request q w)
  | Rejected failure => (Throws (TransportFailure failure), after_request q w)
  end.
Proof.
  intros H Hc api q. unfold getCurrency. rewrite bind_run. cbn [self].
  rewrite bind_run, H. cbn [deref]. unfold mret, Async_ret. rewrite Hc.
  rewrite bind_run. unfold await. fold api.
  destruct (mosaicDefinitions (sdk api) (sent w) (node api) (JS.replace_1 currency));
    reflexivity.
Qed.

(** *** [getTotalAvailableLevyAmount] *)

Lemma getTotalAvailableLevyAmount_loop_run (NEM : SDK) (mosaics : list OwnedMosaic)
  (w : World) :
  getTotalAvailableLevyAmount_loop NEM mosaics w =
  (Returns match dim_coin_entry NEM mosaics with
           | Some b => quantity b
           | None => 0
           end, w).
Proof.
  induction mosaics as [| b rest IH]; [reflexivity |].
  cbn [getTotalAvailableLevyAmount_loop]. unfold dim_coin_entry in *. cbn [find].
  destruct (String.eqb (mosaicIdToName NEM (mosaicId b)) "dim:coin");
    cbn [negb]; [reflexivity | exact IH].
Qed.

(** The method up to its request: a [TypeError] when the registry cache has
    no "dim:coin" entry or the entry has no levy, else one balance request
    for the levy recipient. *)
Lemma getTotalAvailableLevyAmount_run (NEM : SDK) (w : World) :
  getTotalAvailableLevyAmount NEM w =
  match cache w !! "dim:coin" with
  | None => (Throws TypeError, w)
  | Some coin =>
      match levy coin with
      | None => (Throws TypeError, w)
      | Some l =>
          let api := DIMExplorer.api (explorer w) in
          let w' := after_request (OwnedMosaicsRequest (node api) (recipient l)) w in
          match owned (sdk api) (sent w) (node api) (recipient l) with
          | Fulfilled response =>
              (Returns match dim_coin_entry NEM (default [] (data response)) with
                       | Some b => quantity b
                       | None => 0
                       end, w')
          | Rejected failure => (Throws (TransportFailure failure), w')
          end
      end
  end.
Proof.
  unfold getTotalAvailableLevyAmount, cache. rewrite bind_run. cbn [self].
  rewrite bind_run.
  destruct (DIMParameters.mosaicParameters (DIMExplorer.parameters (explorer w)) !! "dim:coin")
    as [coin |]; [| reflexivity].
  cbn [deref]. unfold mret at 1, Async_ret at 1. rewrite bind_run.
  destruct (levy coin) as [l |]; [| reflexivity].
  cbn [deref]. unfold mret at 1, Async_ret at 1. rewrite bind_run. unfold await.
  destruct (owned _ _ _ _); [| reflexivity].
  apply getTotalAvailableLevyAmount_loop_run.
Qed.

Lemma getTotalHoldersShareLevyAmount_run (NEM : SDK) (w : World) :
  getTotalHoldersShareLevyAmount NEM w =
  match getTotalAvailableLevyAmount NEM w with
  | (Returns hundredPercentLevyAmount, w') =>
      (Returns (thirtyPercentLevyAmount hundredPercentLevyAmount), w')
  | (Throws e, w') => (Throws e, w')
  end.
Proof. reflexivity. Qed.

Lemma getTotalCirculatingSupply_run (currency : string) (w : World) :
  getTotalCirculatingSupply currency w =
  match getCurrency currency w with
  | (Returns None, w') => (Returns 0, w')
  | (Returns (Some parameters), w') => (Returns (totalSupply parameters), w')
  | (Throws e, w') => (Throws e, w')
  end.
Proof.
  unfold getTotalCirculatingSupply. rewrite bind_run. cbn [self]. rewrite bind_run.
  destruct (getCurrency currency w) as [[[p |] | e] w']; reflexivity.
Qed.

(** ** The holder share: line 120 *)

(** What line 120 computes on a safe integer: the product of the amount
    with the significand of [0.3], rounded to 53 bits, over [2^54], rounded
    up. *)
Lemma thirtyPercentLevyAmount_Z (L : Z) :
  0 <= L < 2 ^ 53 ->
  thirtyPercentLevyAmount L = - ((- JS.RN53 (Z.pos JS.m_0_3 * L)) / 2 ^ 54).
Proof. apply Math_ceil_mul_lit_0_3. Qed.

(** Up to [3 * 2^50] (about 3.37e15) the result is the ceiling of three
    tenths of the amount. *)
Lemma thirtyPercentLevyAmount_exact (L : Z) :
  0 <= L < 3 * 2 ^ 50 ->
  thirtyPercentLevyAmount L = - ((- (3 * L)) / 10).
Proof.
  intros HL. rewrite thirtyPercentLevyAmount_Z.
  - apply ceil_RN53_exact. assumption.
  - change (2 ^ 50) with 1125899906842624 in HL.
    change (2 ^ 53) with 9007199254740992. lia.
Qed.

Lemma thirtyPercentLevyAmount_bounds (L : Z) :
  0 <= L < 2 ^ 53 -> 0 <= thirtyPercentLevyAmount L <= L.
Proof.
  intros HL. rewrite thirtyPercentLevyAmount_Z by assumption.
  pose proof (RN53_nonneg (Z.pos JS.m_0_3 * L) ltac:(lia)) as H0.
  pose proof (RN53_product_le L HL) as H1.
  assert (HB : 0 < 2 ^ 54) by reflexivity.
  split.
  - assert ((- JS.RN53 (Z.pos JS.m_0_3 * L)) / 2 ^ 54 <= 0); [| lia].
    apply Z.div_le_upper_bound; lia.
  - assert (- L <= (- JS.RN53 (Z.pos JS.m_0_3 * L)) / 2 ^ 54); [| lia].
    apply Z.div_le_lower_bound; lia.
Qed.

Lemma thirtyPercentLevyAmount_mono (L1 L2 : Z) :
  0 <= L1 <= L2 -> L2 < 2 ^ 53 ->
  thirtyPercentLevyAmount L1 <= thirtyPercentLevyAmount L2.
Proof.
  intros H1 H2. rewrite !thirtyPercentLevyAmount_Z by lia.
  pose proof (RN53_mono (Z.pos JS.m_0_3 * L1) (Z.pos JS.m_0_3 * L2)
                ltac:(unfold JS.m_0_3; lia)) as Hm.
  assert ((- JS.RN53 (Z.pos JS.m_0_3 * L2)) / 2 ^ 54
          <= (- JS.RN53 (Z.pos JS.m_0_3 * L1)) / 2 ^ 54); [| lia].
  apply Z.div_le_mono; [reflexivity | lia].
Qed.

(** Scenario 3 of the specification: a pool of 7 gives a share of 3. *)
Example thirtyPercentLevyAmount_7 : thirtyPercentLevyAmount 7 = 3.
Proof. vm_compute. reflexivity. Qed.

Example thirtyPercentLevyAmount_1000000 : thirtyPercentLevyAmount 1000000 = 300000.
Proof. vm_compute. reflexivity. Qed.

(** The first amount at which the product is rounded below the ceiling. *)
Example thirtyPercentLevyAmount_first_low :
  thirtyPercentLevyAmount 3377699720527877 = 1013309916158363 /\
  - ((- (3 * 3377699720527877)) / 10) = 1013309916158364.
Proof. split; vm_compute; reflexivity. Qed.

(** It is the first one: every smaller amount gives the ceiling. *)
Lemma thirtyPercentLevyAmount_exact_below_first_low (L : Z) :
  0 <= L < 3377699720527877 ->
  thirtyPercentLevyAmount L = - ((- (3 * L)) / 10).
Proof.
  intros HL. destruct (Z.lt_ge_cases L 3377699720527872) as [Hlt | Hge].
  - apply thirtyPercentLevyAmount_exact.
    change (2 ^ 50) with 1125899906842624. lia.
  - assert (Hcases : L = 3377699720527872 \/ L = 3377699720527873 \/
                     L = 3377699720527874 \/ L = 3377699720527875 \/
                     L = 3377699720527876) by lia.
    destruct Hcases as [-> | [-> | [-> | [-> | ->]]]]; vm_compute; reflexivity.
Qed.

(** ** The claims of the specification *)

(** C1. Resolving an identifier twice does not return its definition and
    does not query the node once: on an explorer as the constructor builds
    it, with "dim:coin" in the registry cache and a node that would report
    its definition, each [getCurrency("dim:coin")] throws a [TypeError] at
    line 81 and no request is sent. *)
Theorem getCurrency_twice_throws_without_query :
  let NEM := Sample.nem (Sample.ok [Sample.dim_coin_definition]) (Sample.ok []) in
  let w := Sample.world (Sample.ok [Sample.dim_coin_definition]) (Sample.ok []) in
  cache w !! "dim:coin" = Some Sample.dim_coin /\
  getCurrency "dim:coin" w = (Throws TypeError, w) /\
  (first ← getCurrency "dim:coin";
   second ← getCurrency "dim:coin";
   mret (first, second)) w = (Throws TypeError, w) /\
  sent (calls NEM [GetCurrency "dim:coin"; GetCurrency "dim:coin"] w) = [].
Proof.
  cbv zeta. split; [vm_compute; reflexivity |].
  split; [reflexivity |]. split; reflexivity.
Qed.

(** C2. The holder share is not the ceiling of 30% for every pool amount: a
    levy pool of 4000000000000007 units (4.0e15, below the 9.0e15 units of
    dim:coin in existence) gives 1200000000000002, one unit less than the
    ceiling 1200000000000003 of 1200000000000002.1 and less than 30% of the
    pool, because the binary64 product is rounded to a multiple of 1/4. *)
Theorem holders_share_rounds_below_thirty_percent :
  let L := 4000000000000007 in
  let NEM := Sample.nem (Sample.ok []) (Sample.ok [Sample.balance L]) in
  let w := Sample.world (Sample.ok []) (Sample.ok [Sample.balance L]) in
  fst (getTotalAvailableLevyAmount NEM w) = Returns L /\
  fst (getTotalHoldersShareLevyAmount NEM w) = Returns 1200000000000002 /\
  - ((- (3 * L)) / 10) = 1200000000000003 /\
  10 * 1200000000000002 < 3 * L.
Proof.
  cbv zeta. rewrite getTotalHoldersShareLevyAmount_run, getTotalAvailableLevyAmount_run.
  repeat split; vm_compute; reflexivity.
Qed.

(** C3. With "dim:coin" and its levy in the registry cache and a fulfilled
    balance request, [getTotalAvailableLevyAmount] sends one request for the
    balances of the levy recipient and returns the quantity of the first
    entry that formats as "dim:coin", an entry of the list; when no entry
    of the list does (the empty list, or no [data] at all), it returns 0. *)
Theorem getTotalAvailableLevyAmount_spec (NEM : SDK) (w : World)
  (coin : MosaicParameters) (l : LevyConfig) (response : Response OwnedMosaic) :
  let api := DIMExplorer.api (explorer w) in
  let mosaics := default [] (data response) in
  cache w !! "dim:coin" = Some coin ->
  levy coin = Some l ->
  owned (sdk api) (sent w) (node api) (recipient l) = Fulfilled response ->
  getTotalAvailableLevyAmount NEM w =
    (Returns match dim_coin_entry NEM mosaics with
             | Some b => quantity b
             | None => 0
             end,
     after_request (OwnedMosaicsRequest (node api) (recipient l)) w) /\
  (forall b, dim_coin_entry NEM mosaics = Some b ->
     In b mosaics /\ mosaicIdToName NEM (mosaicId b) = "dim:coin") /\
  ((forall b, In b mosaics -> mosaicIdToName NEM (mosaicId b) <> "dim:coin") ->
     fst (getTotalAvailableLevyAmount NEM w) = Returns 0).
Proof.
  intros api mosaics Hc Hl Ho.
  assert (Hrun : getTotalAvailableLevyAmount NEM w =
    (Returns match dim_coin_entry NEM mosaics with
             | Some b => quantity b
             | None => 0
             end,
     after_request (OwnedMosaicsRequest (node api) (recipient l)) w)).
  { rewrite getTotalAvailableLevyAmount_run, Hc, Hl. cbv zeta. fold api.
    rewrite Ho. reflexivity. }
  split; [exact Hrun |]. split.
  - intros b Hb. unfold dim_coin_entry in Hb. apply find_some in Hb as [Hin Heq].
    split; [exact Hin |]. apply String.eqb_eq. exact Heq.
  - intros Hnone. rewrite Hrun. cbn [fst].
    destruct (dim_coin_entry NEM mosaics) as [b |] eqn:E; [| reflexivity].
    unfold dim_coin_entry in E. apply find_some in E as [Hin Heq].
    apply String.eqb_eq in Heq. exfalso. exact (Hnone b Hin Heq).
Qed.

Lemma getTotalAvailableLevyAmount_spec_witness :
  let NEM := Sample.nem (Sample.ok []) (Sample.ok [Sample.balance 1000000]) in
  let w := Sample.world (Sample.ok []) (Sample.ok [Sample.balance 1000000]) in
  getTotalAvailableLevyAmount NEM w =
    (Returns 1000000,
     after_request (OwnedMosaicsRequest (node (DIMExplorer.api (explorer w)))
                                        Sample.levy_account) w).
Proof.
  cbv zeta.
  refine (proj1 (getTotalAvailableLevyAmount_spec
            (Sample.nem (Sample.ok []) (Sample.ok [Sample.balance 1000000]))
            (Sample.world (Sample.ok []) (Sample.ok [Sample.balance 1000000]))
            Sample.dim_coin
            {| recipient := Sample.levy_account; fee := 10; levyMosaic := "dim:coin" |}
            {| data := Some [Sample.balance 1000000] |} _ _ _)).
  - vm_compute. reflexivity.
  - reflexivity.
  - reflexivity.
Defined.

(** Scenarios 1 and 2 of the specification. *)
Example scenario_1 :
  let balances := Sample.ok [Sample.balance 1000000] in
  let NEM := Sample.nem (Sample.ok []) balances in
  let w := Sample.world (Sample.ok []) balances in
  fst (getTotalAvailableLevyAmount NEM w) = Returns 1000000 /\
  fst (getTotalHoldersShareLevyAmount NEM w) = Returns 300000.
Proof.
  cbv zeta. rewrite getTotalHoldersShareLevyAmount_run, getTotalAvailableLevyAmount_run.
  split; vm_compute; reflexivity.
Qed.

Example scenario_2 :
  let balances := Sample.ok [] in
  let NEM := Sample.nem (Sample.ok []) balances in
  let w := Sample.world (Sample.ok []) balances in
  fst (getTotalAvailableLevyAmount NEM w) = Returns 0 /\
  fst (getTotalHoldersShareLevyAmount NEM w) = Returns 0.
Proof.
  cbv zeta. rewrite getTotalHoldersShareLevyAmount_run, getTotalAvailableLevyAmount_run.
  split; vm_compute; reflexivity.
Qed.

(** C4. [getTotalCirculatingSupply] returns neither 0 nor a total supply on
    an explorer as the constructor builds it: for "dim:coin", which the
    node defines, and for "dim:token", which it does not, the call throws
    the [TypeError] of [getCurrency]. *)
Theorem getTotalCirculatingSupply_throws :
  let w := Sample.world (Sample.ok [Sample.dim_coin_definition]) (Sample.ok []) in
  JS.matches "dim:coin" = true /\ JS.matches "dim:token" = true /\
  getTotalCirculatingSupply "dim:coin" w = (Throws TypeError, w) /\
  getTotalCirculatingSupply "dim:token" w = (Throws TypeError, w).
Proof. cbv zeta. repeat split; reflexivity. Qed.

(** *** The pattern of the source *)

Lemma span_line_no_colon (s : string) :
  JS.has_colon s = false -> JS.split_last_colon (fst (JS.span_line s)) = None.
Proof.
  induction s as [| c s IH]; intros H; [reflexivity |].
  cbn [JS.has_colon] in H. apply Bool.orb_false_iff in H as [Hc Hs].
  cbn [JS.span_line]. destruct (JS.isLineTerminator c); [reflexivity |].
  specialize (IH Hs). destruct (JS.span_line s) as [l r]. cbn [fst] in *.
  cbn [JS.split_last_colon]. rewrite IH, Hc. reflexivity.
Qed.

(** A string without a colon has no match. *)
Lemma exec_no_colon (s : string) : JS.has_colon s = false -> JS.exec s = None.
Proof.
  induction s as [| c s IH]; intros H; [reflexivity |].
  pose proof (span_line_no_colon (String c s) H) as Hl.
  cbn [JS.has_colon] in H. apply Bool.orb_false_iff in H as [Hc Hs].
  cbn [JS.exec]. destruct (JS.span_line (String c s)) as [l r]. cbn [fst] in Hl.
  rewrite Hl, (IH Hs). reflexivity.
Qed.

Lemma split_last_colon_head (c : ascii) (l : string) :
  Ascii.eqb c ":"%char = true -> JS.split_last_colon (String c l) <> None.
Proof.
  intros Hc. cbn [JS.split_last_colon].
  destruct (JS.split_last_colon l) as [[g1 g2] |]; [discriminate |].
  rewrite Hc. discriminate.
Qed.

(** A string with a colon has one: the pattern is not anchored and both
    groups may be empty. *)
Lemma exec_colon (s : string) : JS.has_colon s = true -> JS.exec s <> None.
Proof.
  induction s as [| c s IH]; intros H; [discriminate |].
  cbn [JS.has_colon] in H. cbn [JS.exec].
  destruct (JS.span_line (String c s)) as [l r] eqn:El.
  destruct (JS.split_last_colon l) as [[g1 g2] |] eqn:Es; [discriminate |].
  destruct (Ascii.eqb c ":"%char) eqn:Hc.
  - exfalso. cbn [JS.span_line] in El.
    assert (Hlt : JS.isLineTerminator c = false).
    { apply Ascii.eqb_eq in Hc. subst c. reflexivity. }
    rewrite Hlt in El. destruct (JS.span_line s) as [l' r'].
    injection El as <- <-. exact (split_last_colon_head c l' Hc Es).
  - cbn [orb] in H. specialize (IH H).
    destruct (JS.exec s); [discriminate | contradiction].
Qed.

(** [match] tells exactly whether the string holds a colon. *)
Lemma matches_has_colon (s : string) : JS.matches s = JS.has_colon s.
Proof.
  unfold JS.matches. destruct (JS.has_colon s) eqn:H.
  - pose proof (exec_colon s H). destruct (JS.exec s); [reflexivity | contradiction].
  - rewrite exec_no_colon by assumption. reflexivity.
Qed.


Example replace_dim_coin :
  JS.replace_1 "dim:coin" = "dim" /\ JS.replace_2 "dim:coin" = "coin".
Proof. split; reflexivity. Qed.

(** Greedy groups: the namespace runs to the last colon. *)
Example replace_sub_namespace :
  JS.replace_1 "dim:sub:coin" = "dim:sub" /\ JS.replace_2 "dim:sub:coin" = "coin".
Proof. split; reflexivity. Qed.

Example replace_dimcoin :
  JS.matches "dimcoin" = false /\ JS.replace_1 "dimcoin" = "dimcoin".
Proof. split; reflexivity. Qed.

(** Past line 81 nothing checks the identifier: an explorer with an own,
    empty [mosaicParameters] would ask the node for the namespace
    "dimcoin". *)
Example no_validation_past_line_81 :
  let api := Sample.api (Sample.ok []) (Sample.ok []) in
  let w := {| explorer := {| DIMExplorer.mosaicParameters := Some ∅;
                             DIMExplorer.parameters := Sample.registry;
                             DIMExplorer.api := api |};
              sent := []; console := [] |} in
  fst (getCurrency "dimcoin" w) = Returns None /\
  sent (snd (getCurrency "dimcoin" w)) = [MosaicDefinitionsRequest (node api) "dimcoin"].
Proof. cbv zeta. split; vm_compute; reflexivity. Qed.

(** *** The command *)

Lemma log_run (isRawMode : bool) (m : string) (w : World) :
  log isRawMode m w =
  (Returns tt,
   {| explorer := explorer w; sent := sent w;
      console := console w ++ (if isRawMode then [] else [Log m]) |}).
Proof.
  unfold log. destruct isRawMode; cbn [negb]; unfold print, mret, Async_ret.
  - rewrite app_nil_r. destruct w; reflexivity.
  - reflexivity.
Qed.


(** The command on a malformed identifier, run for real. *)
Example run_totalSupply_dimcoin :
  let NEM := Sample.nem (Sample.ok []) (Sample.ok []) in
  let this := {| argv_is_help := false;
                 command_api := Sample.api (Sample.ok []) (Sample.ok []);
                 version := "1.0.0" |} in
  let env := {| raw := true; networkFee := false; payoutFee := false;
                totalSupply_option := Some "dimcoin" |} in
  let w' := snd (run NEM Sample.registry this env (Sample.world (Sample.ok []) (Sample.ok []))) in
  sent w' = [] /\ console w' = [Help; Exit].
Proof. cbv zeta. split; reflexivity. Qed.

(** C6. A definitions list without a matching definition does not make
    [getCurrency] return [null]: with a node that reports dim:coin alone,
    [getCurrency("dim:token")] on an explorer as the constructor builds it
    throws a [TypeError]; the request is not even sent. *)
Theorem getCurrency_no_match_throws :
  let definitions := [Sample.dim_coin_definition] in
  let w := Sample.world (Sample.ok definitions) (Sample.ok []) in
  matching_definition (DIMExplorer.api (explorer w)) "dim:token" definitions = None /\
  getCurrency "dim:token" w = (Throws TypeError, w) /\
  sent (snd (getCurrency "dim:token" w)) = [].
Proof. cbv zeta. repeat split; reflexivity. Qed.

(** *** Transport failures *)

Section Propagation.

Variable NEM : SDK.

Lemma getCurrency_loop_sent (currency : string) (definitions : list MosaicDefinition)
  (w : World) :
  sent (snd (getCurrency_loop currency definitions w)) = sent w.
Proof.
  rewrite getCurrency_loop_run.
  destruct (matching_definition _ _ _); reflexivity.
Qed.

Lemma getCurrency_propagates (currency : string) (w : World) :
  propagates (getCurrency currency) w.
Proof.
  destruct (DIMExplorer.mosaicParameters (explorer w)) as [own |] eqn:Ho.
  - destruct (own !! currency) as [cached |] eqn:Hc.
    + left. rewrite (getCurrency_hit currency w own cached Ho Hc). reflexivity.
    + right.
      exists (MosaicDefinitionsRequest (node (DIMExplorer.api (explorer w)))
                                       (JS.replace_1 currency)).
      rewrite (getCurrency_miss currency w own Ho Hc). cbn [rejection].
      destruct (mosaicDefinitions _ _ _ _) as [response | failure].
      * split; [rewrite getCurrency_loop_sent; reflexivity | discriminate].
      * split; [reflexivity |]. intros f [= <-]. reflexivity.
  - left. rewrite (getCurrency_undefined currency w Ho). reflexivity.
Qed.

Lemma getTotalAvailableLevyAmount_propagates (w : World) :
  propagates (getTotalAvailableLevyAmount NEM) w.
Proof.
  unfold propagates. rewrite getTotalAvailableLevyAmount_run.
  destruct (cache w !! "dim:coin") as [coin |]; [| left; reflexivity].
  destruct (levy coin) as [l |]; [| left; reflexivity].
  right. cbv zeta.
  exists (OwnedMosaicsRequest (node (DIMExplorer.api (explorer w))) (recipient l)).
  cbn [rejection].
  destruct (owned _ _ _ _) as [response | failure].
  - split; [reflexivity | discriminate].
  - split; [reflexivity |]. intros f [= <-]. reflexivity.
Qed.

(** A method that only passes on how another one settled hands on what
    that one hands on. *)
Lemma propagates_through {A B : Type} (m : Async A) (k : A -> B) (w : World) :
  propagates m w -> propagates (a ← m; mret (k a)) w.
Proof.
  unfold propagates. rewrite bind_run.
  destruct (m w) as [[a | e] w']; cbn [fst snd]; intros [H | (q & Hq & Hf)].
  - left. exact H.
  - right. exists q. split; [exact Hq |]. intros f Hr. discriminate (Hf f Hr).
  - left. exact H.
  - right. exists q. split; [exact Hq |]. intros f Hr.
    specialize (Hf f Hr). injection Hf as ->. reflexivity.
Qed.

Lemma getTotalCirculatingSupply_propagates (currency : string) (w : World) :
  propagates (getTotalCirculatingSupply currency) w.
Proof.
  pose proof (getCurrency_propagates currency w) as H.
  unfold propagates in *. rewrite getTotalCirculatingSupply_run.
  destruct (getCurrency currency w) as [[[p |] | e] w']; cbn [fst snd] in *;
    destruct H as [H | (q & Hq & Hf)];
    try (left; exact H);
    right; exists q; (split; [exact Hq |]); intros f Hr;
    specialize (Hf f Hr); try discriminate Hf;
    injection Hf as ->; reflexivity.
Qed.

End Propagation.

(** C7. None of the four operations catches, retries or replaces a transport
    failure: a call sends at most one request, and when the node rejects
    that request the call throws the very failure, so it never returns the
    zero or empty value that stands for "not found". *)
Theorem transport_failure_propagates (NEM : SDK) (c : Call) (w : World) :
  propagates (call NEM c) w.
Proof.
  destruct c as [currency | | | currency]; cbn [call]; apply propagates_through.
  - apply getCurrency_propagates.
  - apply (propagates_through (getTotalAvailableLevyAmount NEM) thirtyPercentLevyAmount).
    apply getTotalAvailableLevyAmount_propagates.
  - apply getTotalAvailableLevyAmount_propagates.
  - apply getTotalCirculatingSupply_propagates.
Qed.

(** A node that times out on the balance request: the two levy operations
    throw the failure. *)
Example timeout_is_thrown :
  let NEM := Sample.nem (Sample.ok []) (Rejected "timeout") in
  let w := Sample.world (Sample.ok []) (Rejected "timeout") in
  fst (getTotalAvailableLevyAmount NEM w) = Throws (TransportFailure "timeout") /\
  fst (getTotalHoldersShareLevyAmount NEM w) = Throws (TransportFailure "timeout") /\
  sent (snd (getTotalHoldersShareLevyAmount NEM w)) =
    [OwnedMosaicsRequest (node (DIMExplorer.api (explorer w))) Sample.levy_account].
Proof.
  cbv zeta. rewrite getTotalHoldersShareLevyAmount_run, getTotalAvailableLevyAmount_run.
  repeat split; vm_compute; reflexivity.
Qed.

(** Past line 81 the same holds for the definitions request. *)
Example definitions_failure_is_thrown :
  let api := Sample.api (Rejected "unreachable") (Sample.ok []) in
  let w := {| explorer := {| DIMExplorer.mosaicParameters := Some ∅;
                             DIMExplorer.parameters := Sample.registry;
                             DIMExplorer.api := api |};
              sent := []; console := [] |} in
  fst (getTotalCirculatingSupply "dim:coin" w) = Throws (TransportFailure "unreachable").
Proof. cbv zeta. vm_compute. reflexivity. Qed.

(** *** The registry cache *)

Section Cache.

Variable NEM : SDK.

(** On an explorer without a [mosaicParameters] property of its own, no
    call changes the explorer object: [getCurrency] throws before its
    store, and the levy operations do not store. *)
Lemma call_explorer (c : Call) (w : World) :
  DIMExplorer.mosaicParameters (explorer w) = None ->
  explorer (snd (call NEM c w)) = explorer w.
Proof.
  intros Ho. destruct c as [currency | | | currency]; cbn [call]; rewrite bind_run.
  - rewrite (getCurrency_undefined currency w Ho). reflexivity.
  - rewrite getTotalHoldersShareLevyAmount_run, getTotalAvailableLevyAmount_run.
    destruct (cache w !! "dim:coin") as [coin |]; [| reflexivity].
    destruct (levy coin) as [l |]; [| reflexivity].
    cbv zeta. destruct (owned _ _ _ _); reflexivity.
  - rewrite getTotalAvailableLevyAmount_run.
    destruct (cache w !! "dim:coin") as [coin |]; [| reflexivity].
    destruct (levy coin) as [l |]; [| reflexivity].
    cbv zeta. destruct (owned _ _ _ _); reflexivity.
  - rewrite getTotalCirculatingSupply_run, (getCurrency_undefined currency w Ho).
    reflexivity.
Qed.

Lemma calls_explorer (cs : list Call) (w : World) :
  DIMExplorer.mosaicParameters (explorer w) = None ->
  explorer (calls NEM cs w) = explorer w.
Proof.
  revert w. induction cs as [| c cs IH]; intros w Ho; [reflexivity |].
  cbn [calls]. pose proof (call_explorer c w Ho) as Hc.
  rewrite IH by (rewrite Hc; exact Ho). exact Hc.
Qed.

(** So [getCurrency] throws after any calls as it does before them. *)
Lemma getCurrency_after_calls (fresh : DIMParameters.t) (NIS : NIS)
  (s : list Request) (c : list Event) (cs : list Call) (currency : string) :
  let w := calls NEM cs {| explorer := DIMExplorer.constructor fresh NIS;
                           sent := s; console := c |} in
  getCurrency currency w = (Throws TypeError, w).
Proof.
  intros w. apply getCurrency_undefined. unfold w.
  rewrite calls_explorer; reflexivity.
Qed.

End Cache.

(** On an explorer as the constructor builds it no call changes the
    registry cache: whatever calls came before ([before]) and whatever
    calls follow ([later]), the cache holds what it held. Nothing is ever
    stored, so nothing is overwritten, and nothing is populated either. *)
Lemma constructed_cache_is_never_written (NEM : SDK) (fresh : DIMParameters.t) (NIS : NIS)
  (s : list Request) (c : list Event) (before later : list Call) :
  let w0 := {| explorer := DIMExplorer.constructor fresh NIS; sent := s; console := c |} in
  cache (calls NEM later (calls NEM before w0)) = DIMParameters.mosaicParameters fresh.
Proof.
  intros w0. unfold cache.
  assert (Hw : explorer (calls NEM before w0) = explorer w0)
    by (apply calls_explorer; reflexivity).
  rewrite calls_explorer; [rewrite Hw; reflexivity |]. rewrite Hw. reflexivity.
Qed.

(** Past line 81 (an explorer with an own [mosaicParameters] that misses
    the identifier) a fulfilled request with a matching definition ends in
    the store of line 98, whatever the registry cache holds under the
    identifier; the own [mosaicParameters] stays as it is, so the next
    call misses again. *)
Lemma getCurrency_stores_over_the_cache (currency : string) (w : World)
  (own : gmap string MosaicParameters) (response : Response MosaicDefinition)
  (d : MosaicDefinition) :
  let api := DIMExplorer.api (explorer w) in
  let params := DIMParameters.fromMosaicDefinition (DIMExplorer.parameters (explorer w)) d in
  DIMExplorer.mosaicParameters (explorer w) = Some own ->
  own !! currency = None ->
  mosaicDefinitions (sdk api) (sent w) (node api) (JS.replace_1 currency)
    = Fulfilled response ->
  matching_definition api currency (default [] (data response)) = Some d ->
  fst (getCurrency currency w) = Returns (Some params) /\
  cache (snd (getCurrency currency w)) !! currency = Some params /\
  DIMExplorer.mosaicParameters (explorer (snd (getCurrency currency w))) = Some own.
Proof.
  intros api params Ho Hc Hr Hd.
  rewrite (getCurrency_miss currency w own Ho Hc). cbv zeta. fold api. rewrite Hr.
  rewrite getCurrency_loop_run. cbn [after_request explorer]. fold api. rewrite Hd.
  cbv zeta. rewrite store_run. unfold cache.
  cbn [fst snd explorer DIMExplorer.set_parameters DIMExplorer.parameters
       DIMExplorer.mosaicParameters DIMParameters.store DIMParameters.mosaicParameters
       after_request].
  split; [reflexivity |]. split; [apply lookup_insert_eq | exact Ho].
Qed.


(** Past line 81 the check and the store are on different objects: the
    check reads the explorer's own [mosaicParameters], the store writes the
    registry cache. An explorer with an own, empty [mosaicParameters] would
    replace an entry of the registry cache. *)
Example store_is_not_guarded_by_the_cache :
  let api := Sample.api (Sample.ok [Sample.dim_coin_definition]) (Sample.ok []) in
  let other := {| identifier := "dim:coin"; totalSupply := 1; divisibility := 0;
                  levy := None |} in
  let registry := DIMParameters.store "dim:coin" other Sample.registry in
  let w := {| explorer := {| DIMExplorer.mosaicParameters := Some ∅;
                             DIMExplorer.parameters := registry;
                             DIMExplorer.api := api |};
              sent := []; console := [] |} in
  cache w !! "dim:coin" = Some other /\
  cache (snd (getCurrency "dim:coin" w)) !! "dim:coin"
    = Some (DIMParameters.fromMosaicDefinition Sample.registry Sample.dim_coin_definition).
Proof. cbv zeta. split; vm_compute; reflexivity. Qed.

(** C9. A response without [data] is an empty list for
    [getTotalAvailableLevyAmount], which returns 0, but [getCurrency] does
    not get as far as its response: on an explorer as the constructor
    builds it, it throws a [TypeError] instead of returning [null]. *)
Theorem data_less_response :
  let NEM := Sample.nem Sample.no_data Sample.no_data in
  let w := Sample.world Sample.no_data Sample.no_data in
  fst (getTotalAvailableLevyAmount NEM w) = Returns 0 /\
  getCurrency "dim:coin" w = (Throws TypeError, w) /\
  fst (getCurrency "dim:coin" w) <> Returns None.
Proof.
  cbv zeta. split; [| split].
  - rewrite getTotalAvailableLevyAmount_run. vm_compute. reflexivity.
  - reflexivity.
  - discriminate.
Qed.

(** The half of C9 that holds, for every world: without [data], and with
    "dim:coin" and its levy in the registry cache, the balance scan returns
    0. *)
Lemma getTotalAvailableLevyAmount_no_data (NEM : SDK) (w : World)
  (coin : MosaicParameters) (l : LevyConfig) :
  let api := DIMExplorer.api (explorer w) in
  cache w !! "dim:coin" = Some coin ->
  levy coin = Some l ->
  owned (sdk api) (sent w) (node api) (recipient l) = Fulfilled {| data := None |} ->
  fst (getTotalAvailableLevyAmount NEM w) = Returns 0.
Proof.
  intros api Hc Hl Ho. rewrite getTotalAvailableLevyAmount_run, Hc, Hl.
  cbv zeta. fold api. rewrite Ho. reflexivity.
Qed.

(** Past line 81 the other half holds as well. *)
Lemma getCurrency_no_data (currency : string) (w : World)
  (own : gmap string MosaicParameters) :
  let api := DIMExplorer.api (explorer w) in
  DIMExplorer.mosaicParameters (explorer w) = Some own ->
  own !! currency = None ->
  mosaicDefinitions (sdk api) (sent w) (node api) (JS.replace_1 currency)
    = Fulfilled {| data := None |} ->
  fst (getCurrency currency w) = Returns None.
Proof.
  intros api Ho Hc Hr. rewrite (getCurrency_miss currency w own Ho Hc).
  fold api. rewrite Hr. reflexivity.
Qed.

(** C10. For pool amounts that are safe integers (below 2^53, which every
    quantity of the ledger is), the holder share lies between 0 and the
    pool, and a larger pool never gives a smaller share. *)
Theorem holders_share_bounded_and_monotone (NEM : SDK) (w1 w2 : World) (L1 L2 : Z) :
  fst (getTotalAvailableLevyAmount NEM w1) = Returns L1 ->
  fst (getTotalAvailableLevyAmount NEM w2) = Returns L2 ->
  0 <= L1 <= L2 -> L2 < 2 ^ 53 ->
  exists r1 r2,
    fst (getTotalHoldersShareLevyAmount NEM w1) = Returns r1 /\
    fst (getTotalHoldersShareLevyAmount NEM w2) = Returns r2 /\
    0 <= r1 <= L1 /\ 0 <= r2 <= L2 /\ r1 <= r2.
Proof.
  intros H1 H2 HL Hs.
  exists (thirtyPercentLevyAmount L1), (thirtyPercentLevyAmount L2).
  rewrite !getTotalHoldersShareLevyAmount_run.
  destruct (getTotalAvailableLevyAmount NEM w1) as [o1 w1'].
  destruct (getTotalAvailableLevyAmount NEM w2) as [o2 w2'].
  cbn [fst] in H1, H2. subst o1 o2. cbn [fst].
  split; [reflexivity |]. split; [reflexivity |].
  split; [apply thirtyPercentLevyAmount_bounds; lia |].
  split; [apply thirtyPercentLevyAmount_bounds; lia |].
  apply thirtyPercentLevyAmount_mono; lia.
Qed.

Lemma holders_share_bounded_and_monotone_witness :
  let NEM := Sample.nem (Sample.ok []) (Sample.ok []) in
  let w1 := Sample.world (Sample.ok []) (Sample.ok [Sample.balance 7]) in
  let w2 := Sample.world (Sample.ok []) (Sample.ok [Sample.balance 9000000000000000]) in
  exists r1 r2,
    fst (getTotalHoldersShareLevyAmount NEM w1) = Returns r1 /\
    fst (getTotalHoldersShareLevyAmount NEM w2) = Returns r2 /\
    0 <= r1 <= 7 /\ 0 <= r2 <= 9000000000000000 /\ r1 <= r2.
Proof.
  cbv zeta.
  apply (holders_share_bounded_and_monotone
           (Sample.nem (Sample.ok []) (Sample.ok []))
           (Sample.world (Sample.ok []) (Sample.ok [Sample.balance 7]))
           (Sample.world (Sample.ok []) (Sample.ok [Sample.balance 9000000000000000]))
           7 9000000000000000).
  - rewrite getTotalAvailableLevyAmount_run. vm_compute. reflexivity.
  - rewrite getTotalAvailableLevyAmount_run. vm_compute. reflexivity.
  - lia.
  - reflexivity.
Defined.

(** * Further properties of the code *)

(** ** The pattern of lines 85-86 and of the command's check *)

Lemma append_cons (c : ascii) (a b : string) :
  String c a ++ b = String c (a ++ b).
Proof. reflexivity. Qed.

Lemma append_assoc (a b c : string) : (a ++ b) ++ c = a ++ b ++ c.
Proof.
  induction a as [| x a IH]; [reflexivity |].
  rewrite !append_cons, IH. reflexivity.
Qed.

Lemma span_line_append (s : string) :
  fst (JS.span_line s) ++ snd (JS.span_line s) = s /\
  Text.has_line_terminator (fst (JS.span_line s)) = false.
Proof.
  induction s as [| c s [IH1 IH2]]; [split; reflexivity |].
  cbn [JS.span_line]. destruct (JS.isLineTerminator c) eqn:Hc.
  - split; reflexivity.
  - destruct (JS.span_line s) as [l r]. cbn [fst snd] in *.
    split; [rewrite append_cons; f_equal; exact IH1 |].
    cbn [Text.has_line_terminator]. rewrite Hc. exact IH2.
Qed.

Lemma span_line_whole (s : string) :
  Text.has_line_terminator s = false -> JS.span_line s = (s, EmptyString).
Proof.
  induction s as [| c s IH]; intros H; [reflexivity |].
  cbn [Text.has_line_terminator] in H. apply Bool.orb_false_iff in H as [Hc Hs].
  cbn [JS.span_line]. rewrite Hc, (IH Hs). reflexivity.
Qed.

Lemma split_last_colon_none (l : string) :
  JS.split_last_colon l = None <-> JS.has_colon l = false.
Proof.
  induction l as [| c l IH]; [split; reflexivity |].
  cbn [JS.split_last_colon JS.has_colon].
  destruct (JS.split_last_colon l) as [[g1 g2] |].
  - split; [discriminate |]. intros H. apply Bool.orb_false_iff in H as [_ H].
    apply IH in H. discriminate.
  - destruct (Ascii.eqb c ":"%char); cbn [orb].
    + split; discriminate.
    + split; intros _; [apply IH |]; reflexivity.
Qed.

Lemma split_last_colon_some (l g1 g2 : string) :
  JS.split_last_colon l = Some (g1, g2) ->
  l = g1 ++ ":" ++ g2 /\ JS.has_colon g2 = false.
Proof.
  revert g1. induction l as [| c l IH]; intros g1 H; [discriminate |].
  cbn [JS.split_last_colon] in H.
  destruct (JS.split_last_colon l) as [[h1 h2] |] eqn:E.
  - injection H as <- <-. destruct (IH h1 eq_refl) as [-> Hg].
    split; [reflexivity | exact Hg].
  - destruct (Ascii.eqb c ":"%char) eqn:Hc; [| discriminate].
    injection H as <- <-. apply Ascii.eqb_eq in Hc. subst c.
    split; [reflexivity |]. apply split_last_colon_none. exact E.
Qed.

Lemma has_line_terminator_app (a b : string) :
  Text.has_line_terminator (a ++ b) =
  Text.has_line_terminator a || Text.has_line_terminator b.
Proof.
  induction a as [| c a IH]; [reflexivity |].
  rewrite append_cons. cbn [Text.has_line_terminator]. rewrite IH.
  apply Bool.orb_assoc.
Qed.

Lemma has_colon_app (a b : string) :
  JS.has_colon (a ++ b) = JS.has_colon a || JS.has_colon b.
Proof.
  induction a as [| c a IH]; [reflexivity |].
  rewrite append_cons. cbn [JS.has_colon]. rewrite IH. apply Bool.orb_assoc.
Qed.

Lemma span_line_rest (s : string) :
  Text.starts_past_a_line (snd (JS.span_line s)) = true.
Proof.
  induction s as [| c s IH]; [reflexivity |].
  cbn [JS.span_line]. destruct (JS.isLineTerminator c) eqn:Hc.
  - cbn [snd Text.starts_past_a_line]. exact Hc.
  - destruct (JS.span_line s) as [l r]. exact IH.
Qed.

(** A match that starts at the head of the string: the first line holds a
    colon. *)
Lemma exec_at_head (s : string) (m : JS.MatchResult) :
  JS.exec s = Some m -> JS.before m = EmptyString ->
  JS.split_last_colon (fst (JS.span_line s)) <> None.
Proof.
  destruct s as [| c s]; [discriminate |]. cbn [JS.exec].
  destruct (JS.span_line (String c s)) as [l r]. cbn [fst].
  destruct (JS.split_last_colon l) as [[g1 g2] |]; [discriminate |].
  destruct (JS.exec s) as [m' |]; [| discriminate].
  intros [= <-]. discriminate.
Qed.

(** X1. Whatever the string, a match of the pattern cuts it into five
    parts, [before], [$1], a colon, [$2] and [after], and [replace] keeps
    [before] and [after] around the group it inserts. The match is the
    whole of the first line that holds a colon, cut at that line's last
    colon: [before] holds no colon and ends where a line starts (it is empty
    or ends with a line terminator), [after] starts where the line ends (it
    is empty or starts with a line terminator), the groups hold no line
    terminator, and [$2] holds no colon (the first group is greedy and takes
    all colons but the last). *)
Theorem exec_cuts_at_last_colon_of_first_line (s : string) (m : JS.MatchResult) :
  JS.exec s = Some m ->
  s = JS.before m ++ JS.group1 m ++ ":" ++ JS.group2 m ++ JS.after m /\
  JS.replace_1 s = JS.before m ++ JS.group1 m ++ JS.after m /\
  JS.replace_2 s = JS.before m ++ JS.group2 m ++ JS.after m /\
  JS.has_colon (JS.before m) = false /\
  Text.ends_a_line (JS.before m) = true /\
  JS.has_colon (JS.group2 m) = false /\
  Text.has_line_terminator (JS.group1 m) = false /\
  Text.has_line_terminator (JS.group2 m) = false /\
  Text.starts_past_a_line (JS.after m) = true.
Proof.
  intros H.
  assert (Hr : JS.replace_1 s = JS.before m ++ JS.group1 m ++ JS.after m /\
               JS.replace_2 s = JS.before m ++ JS.group2 m ++ JS.after m).
  { unfold JS.replace_1, JS.replace_2. rewrite H. split; reflexivity. }
  destruct Hr as [Hr1 Hr2].
  enough (Hcut : s = JS.before m ++ JS.group1 m ++ ":" ++ JS.group2 m ++ JS.after m /\
                 JS.has_colon (JS.before m) = false /\
                 Text.ends_a_line (JS.before m) = true /\
                 JS.has_colon (JS.group2 m) = false /\
                 Text.has_line_terminator (JS.group1 m) = false /\
                 Text.has_line_terminator (JS.group2 m) = false /\
                 Text.starts_past_a_line (JS.after m) = true)
    by (destruct Hcut as (? & ? & ? & ? & ? & ? & ?); split_and!; assumption).
  clear Hr1 Hr2. revert m H.
  induction s as [| c s IH]; intros m H; [discriminate |].
  cbn [JS.exec] in H.
  pose proof (span_line_append (String c s)) as [Happ Hlt].
  pose proof (span_line_rest (String c s)) as Hrest.
  destruct (JS.span_line (String c s)) as [l r] eqn:El.
  cbn [fst snd] in Happ, Hlt, Hrest.
  destruct (JS.split_last_colon l) as [[g1 g2] |] eqn:Es.
  - injection H as <-. cbn [JS.before JS.group1 JS.group2 JS.after].
    destruct (split_last_colon_some l g1 g2 Es) as [-> Hg2].
    rewrite !has_line_terminator_app in Hlt.
    apply Bool.orb_false_iff in Hlt as [Hl1 Hl2].
    apply Bool.orb_false_iff in Hl2 as [_ Hl2].
    split.
    { rewrite <- Happ, !append_assoc. reflexivity. }
    split_and!; try assumption; reflexivity.
  - destruct (JS.exec s) as [m' |] eqn:Ex; [| discriminate].
    injection H as <-. cbn [JS.before JS.group1 JS.group2 JS.after].
    destruct (IH m' eq_refl) as (Hs & Hb & Hbl & Hg2 & Hl1 & Hl2 & Ha).
    assert (Hhead : JS.isLineTerminator c = false -> JS.split_last_colon l
                    = match JS.split_last_colon (fst (JS.span_line s)) with
                      | Some (g1, g2) => Some (String c g1, g2)
                      | None => if Ascii.eqb c ":"%char
                                then Some (EmptyString, fst (JS.span_line s)) else None
                      end).
    { intros Hnl. cbn [JS.span_line] in El. rewrite Hnl in El.
      destruct (JS.span_line s) as [l' r']. injection El as <- <-. reflexivity. }
    split; [rewrite append_cons; f_equal; exact Hs |].
    split_and!; try assumption.
    + cbn [JS.has_colon]. rewrite Hb, Bool.orb_false_r.
      destruct (Ascii.eqb c ":"%char) eqn:Hc; [| reflexivity].
      exfalso.
      assert (Hnl : JS.isLineTerminator c = false).
      { apply Ascii.eqb_eq in Hc. subst c. reflexivity. }
      pose proof (Hhead Hnl) as Hl. rewrite Es in Hl.
      destruct (JS.split_last_colon (fst (JS.span_line s))) as [[h1 h2] |];
        discriminate.
    + cbn [Text.ends_a_line].
      destruct (JS.before m') as [| c' b'] eqn:Eb; [| rewrite <- Eb in *; exact Hbl].
      destruct (JS.isLineTerminator c) eqn:Hnl; [reflexivity |].
      exfalso. apply (exec_at_head s m' Ex Eb).
      pose proof (Hhead eq_refl) as Hl. rewrite Es in Hl.
      destruct (JS.split_last_colon (fst (JS.span_line s))) as [[h1 h2] |];
        [discriminate | reflexivity].
Qed.

Lemma exec_cuts_at_last_colon_of_first_line_witness :
  let s := "fee" ++ String "010"%char "dim:sub:coin" ++ String "013"%char "a:b" in
  let m := {| JS.before := "fee" ++ String "010"%char EmptyString;
              JS.group1 := "dim:sub"; JS.group2 := "coin";
              JS.after := String "013"%char "a:b" |} in
  s = JS.before m ++ JS.group1 m ++ ":" ++ JS.group2 m ++ JS.after m /\
  JS.replace_1 s = JS.before m ++ JS.group1 m ++ JS.after m /\
  JS.replace_2 s = JS.before m ++ JS.group2 m ++ JS.after m /\
  JS.has_colon (JS.before m) = false /\
  Text.ends_a_line (JS.before m) = true /\
  JS.has_colon (JS.group2 m) = false /\
  Text.has_line_terminator (JS.group1 m) = false /\
  Text.has_line_terminator (JS.group2 m) = false /\
  Text.starts_past_a_line (JS.after m) = true.
Proof.
  cbv zeta.
  apply (exec_cuts_at_last_colon_of_first_line
           ("fee" ++ String "010"%char "dim:sub:coin" ++ String "013"%char "a:b")
           {| JS.before := "fee" ++ String "010"%char EmptyString;
              JS.group1 := "dim:sub"; JS.group2 := "coin";
              JS.after := String "013"%char "a:b" |}).
  vm_compute. reflexivity.
Defined.

Lemma split_last_colon_joined (ns nm : string) :
  JS.has_colon nm = false ->
  JS.split_last_colon (ns ++ ":" ++ nm) = Some (ns, nm).
Proof.
  intros Hnm. induction ns as [| c ns IH].
  - change (EmptyString ++ ":" ++ nm) with (String ":"%char nm).
    cbn [JS.split_last_colon].
    replace (JS.split_last_colon nm) with (@None (string * string))
      by (symmetry; apply split_last_colon_none; exact Hnm).
    reflexivity.
  - rewrite append_cons. cbn [JS.split_last_colon]. rewrite IH. reflexivity.
Qed.

Lemma exec_single_line (s g1 g2 : string) :
  Text.has_line_terminator s = false ->
  JS.split_last_colon s = Some (g1, g2) ->
  JS.exec s = Some {| JS.before := EmptyString; JS.group1 := g1;
                      JS.group2 := g2; JS.after := EmptyString |}.
Proof.
  intros Hlt Hs. destruct s as [| c s]; [discriminate |].
  cbn [JS.exec]. rewrite (span_line_whole _ Hlt), Hs. reflexivity.
Qed.

Lemma append_nil_r (a : string) : a ++ EmptyString = a.
Proof. induction a as [| c a IH]; [reflexivity |]. rewrite append_cons, IH. reflexivity. Qed.

(** X2. Lines 85-86 undo the formatting of a mosaic name: for a namespace
    and a name on one line, the name without a colon, the two [replace]
    calls on "namespace:name" give back the namespace (sub-namespaces with
    their colons included) and the name. *)
Theorem replace_splits_joined_name (ns nm : string) :
  Text.has_line_terminator ns = false ->
  Text.has_line_terminator nm = false ->
  JS.has_colon nm = false ->
  JS.replace_1 (ns ++ ":" ++ nm) = ns /\ JS.replace_2 (ns ++ ":" ++ nm) = nm.
Proof.
  intros Hns Hnm Hc.
  assert (Hlt : Text.has_line_terminator (ns ++ ":" ++ nm) = false).
  { rewrite !has_line_terminator_app, Hns, Hnm. reflexivity. }
  pose proof (exec_single_line _ ns nm Hlt (split_last_colon_joined ns nm Hc)) as He.
  unfold JS.replace_1, JS.replace_2. rewrite He. cbn [JS.before JS.group1 JS.group2 JS.after].
  change (EmptyString ++ ?x) with x. rewrite !append_nil_r. split; reflexivity.
Qed.

Lemma replace_splits_joined_name_witness :
  JS.replace_1 ("dim.sub:deep" ++ ":" ++ "coin") = "dim.sub:deep" /\
  JS.replace_2 ("dim.sub:deep" ++ ":" ++ "coin") = "coin".
Proof.
  apply (replace_splits_joined_name "dim.sub:deep" "coin"); reflexivity.
Defined.

(** X3. For an identifier on one line that holds a colon, the namespace
    and the name that lines 85-86 cut out join back to the identifier, and
    the name holds no colon: the cut is at the last colon. *)
Theorem replace_parts_join_to_identifier (currency : string) :
  Text.has_line_terminator currency = false ->
  JS.has_colon currency = true ->
  JS.replace_1 currency ++ ":" ++ JS.replace_2 currency = currency /\
  JS.has_colon (JS.replace_2 currency) = false.
Proof.
  intros Hlt Hc.
  destruct (JS.split_last_colon currency) as [[g1 g2] |] eqn:Es.
  - destruct (split_last_colon_some _ _ _ Es) as [Heq Hg2].
    pose proof (exec_single_line currency g1 g2 Hlt Es) as He.
    unfold JS.replace_1, JS.replace_2. rewrite He.
    cbn [JS.before JS.group1 JS.group2 JS.after].
    change (EmptyString ++ ?x) with x. rewrite !append_nil_r.
    split; [symmetry; exact Heq | exact Hg2].
  - apply split_last_colon_none in Es. congruence.
Qed.

Lemma replace_parts_join_to_identifier_witness :
  JS.replace_1 "dim:sub:coin" ++ ":" ++ JS.replace_2 "dim:sub:coin" = "dim:sub:coin" /\
  JS.has_colon (JS.replace_2 "dim:sub:coin") = false.
Proof.
  apply (replace_parts_join_to_identifier "dim:sub:coin"); reflexivity.
Defined.

(** X4. The format check of the command (explorer.js line 152) is a check
    for a colon and nothing more: [match] succeeds exactly on the strings
    that hold a colon, wherever it stands, so a lone colon, an empty
    namespace or an empty name pass it; and only on a string without a
    colon does [replace] leave the string as it is. *)
Theorem match_succeeds_iff_colon (s : string) :
  (JS.matches s = true <-> JS.has_colon s = true) /\
  (JS.has_colon s = false -> JS.replace_1 s = s /\ JS.replace_2 s = s) /\
  JS.matches ":" = true /\ JS.matches ":coin" = true /\ JS.matches "dim:" = true.
Proof.
  split; [rewrite matches_has_colon; reflexivity |].
  split; [| repeat split; reflexivity].
  intros H. unfold JS.replace_1, JS.replace_2.
  rewrite (exec_no_colon s H). split; reflexivity.
Qed.

Lemma match_succeeds_iff_colon_witness :
  JS.replace_1 "dimcoin" = "dimcoin" /\ JS.replace_2 "dimcoin" = "dimcoin".
Proof.
  apply (proj1 (proj2 (match_succeeds_iff_colon "dimcoin"))). reflexivity.
Defined.

(** *** The cut is the only one of its shape *)

Lemma span_line_app (l a : string) :
  Text.has_line_terminator l = false -> Text.starts_past_a_line a = true ->
  JS.span_line (l ++ a) = (l, a).
Proof.
  intros Hl Ha. induction l as [| c l IH].
  - destruct a as [| c a]; [reflexivity |].
    change (EmptyString ++ String c a) with (String c a).
    cbn [JS.span_line]. cbn [Text.starts_past_a_line] in Ha. rewrite Ha. reflexivity.
  - cbn [Text.has_line_terminator] in Hl. apply Bool.orb_false_iff in Hl as [Hc Hl].
    rewrite append_cons. cbn [JS.span_line]. rewrite Hc, (IH Hl). reflexivity.
Qed.

Lemma exec_first_line (s l r g1 g2 : string) :
  JS.span_line s = (l, r) -> JS.split_last_colon l = Some (g1, g2) ->
  JS.exec s = Some {| JS.before := EmptyString; JS.group1 := g1;
                      JS.group2 := g2; JS.after := r |}.
Proof.
  intros Hs Hl. destruct s as [| c s].
  - injection Hs as <- <-. discriminate.
  - cbn [JS.exec]. rewrite Hs, Hl. reflexivity.
Qed.

(** The first line of a text that goes on behind [b] lies within [b], when
    [b] is not empty and ends with a line terminator. *)
Lemma first_line_within (b t : string) :
  b <> EmptyString -> Text.ends_a_line b = true -> JS.has_colon b = false ->
  JS.has_colon (fst (JS.span_line (b ++ t))) = false.
Proof.
  induction b as [| c b IH]; intros Hne He Hc; [contradiction |].
  rewrite append_cons. cbn [JS.span_line].
  destruct (JS.isLineTerminator c) eqn:Hlt; [reflexivity |].
  cbn [JS.has_colon] in Hc. apply Bool.orb_false_iff in Hc as [Hc Hb].
  destruct b as [| c' b'].
  - cbn [Text.ends_a_line] in He. congruence.
  - specialize (IH ltac:(discriminate) He Hb).
    destruct (JS.span_line (String c' b' ++ t)) as [l r]. cbn [fst] in *.
    cbn [JS.has_colon]. rewrite Hc, IH. reflexivity.
Qed.

(** Every cut of a string with the properties of X1 is the match: the
    properties fix the five parts. *)
Lemma exec_cut_unique (b g1 g2 a : string) :
  JS.has_colon b = false -> Text.ends_a_line b = true ->
  Text.has_line_terminator g1 = false -> Text.has_line_terminator g2 = false ->
  JS.has_colon g2 = false -> Text.starts_past_a_line a = true ->
  JS.exec (b ++ g1 ++ ":" ++ g2 ++ a) =
  Some {| JS.before := b; JS.group1 := g1; JS.group2 := g2; JS.after := a |}.
Proof.
  intros Hb He Hg1 Hg2 Hc Ha.
  assert (Hline : Text.has_line_terminator (g1 ++ ":" ++ g2) = false).
  { rewrite !has_line_terminator_app, Hg1, Hg2. reflexivity. }
  induction b as [| c b IH].
  - change (EmptyString ++ g1 ++ ":" ++ g2 ++ a) with (g1 ++ ":" ++ g2 ++ a).
    apply (exec_first_line _ (g1 ++ ":" ++ g2) a).
    + replace (g1 ++ ":" ++ g2 ++ a) with ((g1 ++ ":" ++ g2) ++ a)
        by (rewrite !append_assoc; reflexivity).
      apply span_line_app; assumption.
    + apply split_last_colon_joined. exact Hc.
  - pose proof (first_line_within (String c b) (g1 ++ ":" ++ g2 ++ a)
                  ltac:(discriminate) He Hb) as Hfirst.
    apply split_last_colon_none in Hfirst.
    assert (Hb' : JS.has_colon b = false).
    { cbn [JS.has_colon] in Hb. apply Bool.orb_false_iff in Hb as [_ Hb]. exact Hb. }
    assert (He' : Text.ends_a_line b = true).
    { destruct b as [| c' b']; [reflexivity | exact He]. }
    specialize (IH Hb' He').
    rewrite (append_cons c b) in *. cbn [JS.exec].
    destruct (JS.span_line (String c (b ++ g1 ++ ":" ++ g2 ++ a))) as [l r].
    cbn [fst] in Hfirst. rewrite Hfirst, IH. reflexivity.
Qed.

(** So the cut of "a:b:c" at its first colon is not a match: its [after],
    "b:c", does not start behind the line. *)
Example exec_first_colon_is_no_match :
  JS.exec "a:b:c" = Some {| JS.before := ""; JS.group1 := "a:b"; JS.group2 := "c";
                            JS.after := "" |} /\
  Text.starts_past_a_line "b:c" = false.
Proof. split; reflexivity. Qed.

(** ** The holder share, for every safe integer *)

Lemma holders_share_of (NEM : SDK) (w : World) (L : Z) :
  fst (getTotalAvailableLevyAmount NEM w) = Returns L ->
  fst (getTotalHoldersShareLevyAmount NEM w) = Returns (thirtyPercentLevyAmount L).
Proof.
  intros H. rewrite getTotalHoldersShareLevyAmount_run.
  destruct (getTotalAvailableLevyAmount NEM w) as [o w']. cbn [fst] in *.
  subst o. reflexivity.
Qed.

(** The product of [0.3] and [L] against the multiples of [2^54] around
    three tenths of [L]. *)
Lemma product_between_multiples (L : Z) :
  0 < L < 2 ^ 53 ->
  let c := - ((- (3 * L)) / 10) in
  10 * (c - 1) < 3 * L <= 10 * c /\
  (c - 1) * 2 ^ 54 < Z.pos JS.m_0_3 * L < c * 2 ^ 54.
Proof.
  intros HL c.
  assert (Hc : 10 * (c - 1) < 3 * L <= 10 * c).
  { pose proof (Z.div_mod (- (3 * L)) 10 ltac:(lia)) as D.
    pose proof (Z.mod_pos_bound (- (3 * L)) 10 ltac:(lia)) as B.
    subst c. lia. }
  split; [exact Hc |].
  change (2 ^ 53) with 9007199254740992 in HL.
  change (2 ^ 54) with 18014398509481984. unfold JS.m_0_3. lia.
Qed.

Lemma ceil_div_between (R B c : Z) :
  0 < B -> (c - 2) * B < R <= c * B -> c - 1 <= - ((- R) / B) <= c.
Proof.
  intros HB [H1 H2]. split.
  - assert ((- R) / B < - (c - 1) + 1); [| lia].
    apply Z.div_lt_upper_bound; lia.
  - assert (- c <= (- R) / B); [| lia].
    apply Z.div_le_lower_bound; lia.
Qed.

(** Below [2^106] the rounding moves a value by at most [2^52]. *)
Lemma RN53_within_half_spacing (P : Z) :
  0 <= P < 2 ^ 106 -> 2 * P - 2 ^ 53 <= 2 * JS.RN53 P.
Proof.
  intros [HP Hlt].
  destruct (Z.lt_ge_cases P (2 ^ 53)) as [S | B].
  - rewrite RN53_small by lia. change (2 ^ 53) with 9007199254740992. lia.
  - pose proof (RN53_near P B) as Hnear.
    assert (Hlog : Z.log2 P < 106) by (apply Z.log2_lt_pow2; lia).
    assert (Hpow : 2 ^ (Z.log2 P - 52) <= 2 ^ 53) by (apply Z.pow_le_mono_r; lia).
    lia.
Qed.

(** X5. For every pool amount below 3377699720527877 that
    [getTotalAvailableLevyAmount] returns, [getTotalHoldersShareLevyAmount]
    returns exactly the ceiling of three tenths of it, so ten times the
    share is at least three times the pool and less than that plus ten. *)
Theorem holders_share_exact_below_threshold (NEM : SDK) (w : World) (L : Z) :
  fst (getTotalAvailableLevyAmount NEM w) = Returns L ->
  0 <= L < 3377699720527877 ->
  exists r,
    fst (getTotalHoldersShareLevyAmount NEM w) = Returns r /\
    r = - ((- (3 * L)) / 10) /\
    3 * L <= 10 * r < 3 * L + 10.
Proof.
  intros H HL. exists (thirtyPercentLevyAmount L).
  split; [apply holders_share_of; exact H |].
  rewrite thirtyPercentLevyAmount_exact_below_first_low by exact HL.
  split; [reflexivity |].
  pose proof (Z.div_mod (- (3 * L)) 10 ltac:(lia)) as D.
  pose proof (Z.mod_pos_bound (- (3 * L)) 10 ltac:(lia)) as B. lia.
Qed.

Lemma holders_share_exact_below_threshold_witness :
  let NEM := Sample.nem (Sample.ok []) (Sample.ok []) in
  let w := Sample.world (Sample.ok []) (Sample.ok [Sample.balance 3377699720527867]) in
  exists r,
    fst (getTotalHoldersShareLevyAmount NEM w) = Returns r /\
    r = - ((- (3 * 3377699720527867)) / 10) /\
    3 * 3377699720527867 <= 10 * r < 3 * 3377699720527867 + 10.
Proof.
  cbv zeta.
  apply (holders_share_exact_below_threshold
           (Sample.nem (Sample.ok []) (Sample.ok []))
           (Sample.world (Sample.ok []) (Sample.ok [Sample.balance 3377699720527867]))
           3377699720527867).
  - rewrite getTotalAvailableLevyAmount_run. vm_compute. reflexivity.
  - lia.
Defined.

(** X6. For every pool amount that is a safe integer, the share is the
    ceiling of three tenths of the pool or one unit less, never more: the
    rounding of the product can lose one unit and cannot add one. *)
Theorem holders_share_at_most_one_unit_low (NEM : SDK) (w : World) (L : Z) :
  fst (getTotalAvailableLevyAmount NEM w) = Returns L ->
  0 <= L < 2 ^ 53 ->
  exists r,
    fst (getTotalHoldersShareLevyAmount NEM w) = Returns r /\
    - ((- (3 * L)) / 10) - 1 <= r <= - ((- (3 * L)) / 10).
Proof.
  intros H HL. exists (thirtyPercentLevyAmount L).
  split; [apply holders_share_of; exact H |].
  destruct (Z.eq_dec L 0) as [-> | Hnz]; [vm_compute; split; discriminate |].
  rewrite thirtyPercentLevyAmount_Z by exact HL.
  destruct (product_between_multiples L ltac:(lia)) as [Hc [Hlo Hhi]].
  set (c := - ((- (3 * L)) / 10)) in *.
  assert (H106 : Z.pos JS.m_0_3 * L < 2 ^ 106).
  { change (2 ^ 53) with 9007199254740992 in HL. unfold JS.m_0_3.
    change (2 ^ 106) with 81129638414606681695789005144064. lia. }
  apply ceil_div_between; [reflexivity |]. split.
  - pose proof (RN53_within_half_spacing (Z.pos JS.m_0_3 * L)
                  ltac:(unfold JS.m_0_3 in *; lia)) as Hn.
    change (2 ^ 53) with 9007199254740992 in Hn.
    change (2 ^ 54) with 18014398509481984 in *. lia.
  - apply RN53_le_multiple; [unfold JS.m_0_3 in *; lia | exact H106].
Qed.

Lemma holders_share_at_most_one_unit_low_witness :
  let NEM := Sample.nem (Sample.ok []) (Sample.ok []) in
  let w := Sample.world (Sample.ok []) (Sample.ok [Sample.balance 8999999999999997]) in
  exists r,
    fst (getTotalHoldersShareLevyAmount NEM w) = Returns r /\
    - ((- (3 * 8999999999999997)) / 10) - 1 <= r <= - ((- (3 * 8999999999999997)) / 10).
Proof.
  cbv zeta.
  apply (holders_share_at_most_one_unit_low
           (Sample.nem (Sample.ok []) (Sample.ok []))
           (Sample.world (Sample.ok []) (Sample.ok [Sample.balance 8999999999999997]))
           8999999999999997).
  - rewrite getTotalAvailableLevyAmount_run. vm_compute. reflexivity.
  - split; [lia | reflexivity].
Defined.

(** X7. For every pool amount that is a safe integer and a multiple of ten,
    the share is exactly three tenths of the pool. *)
Theorem holders_share_exact_on_multiples_of_ten (NEM : SDK) (w : World) (j : Z) :
  fst (getTotalAvailableLevyAmount NEM w) = Returns (10 * j) ->
  0 <= 10 * j < 2 ^ 53 ->
  fst (getTotalHoldersShareLevyAmount NEM w) = Returns (3 * j).
Proof.
  intros H HL. rewrite (holders_share_of NEM w (10 * j) H). f_equal.
  destruct (Z.eq_dec j 0) as [-> | Hnz]; [reflexivity |].
  rewrite thirtyPercentLevyAmount_Z by exact HL.
  change (2 ^ 53) with 9007199254740992 in HL.
  assert (H106 : Z.pos JS.m_0_3 * (10 * j) < 2 ^ 106).
  { unfold JS.m_0_3. change (2 ^ 106) with 81129638414606681695789005144064. lia. }
  apply ceil_div_unique; [reflexivity |]. split.
  - pose proof (RN53_within_half_spacing (Z.pos JS.m_0_3 * (10 * j))
                  ltac:(unfold JS.m_0_3 in *; lia)) as Hn.
    change (2 ^ 53) with 9007199254740992 in Hn.
    assert (HP : Z.pos JS.m_0_3 * (10 * j) = 3 * j * 2 ^ 54 - 2 * j).
    { unfold JS.m_0_3. change (2 ^ 54) with 18014398509481984. lia. }
    rewrite HP in Hn. rewrite HP.
    change (2 ^ 54) with 18014398509481984 in *. lia.
  - apply RN53_le_multiple; [| exact H106].
    unfold JS.m_0_3. change (2 ^ 54) with 18014398509481984. lia.
Qed.

Lemma holders_share_exact_on_multiples_of_ten_witness :
  let NEM := Sample.nem (Sample.ok []) (Sample.ok []) in
  let w := Sample.world (Sample.ok []) (Sample.ok [Sample.balance 9000000000000000]) in
  fst (getTotalHoldersShareLevyAmount NEM w) = Returns 2700000000000000.
Proof.
  cbv zeta.
  apply (holders_share_exact_on_multiples_of_ten
           (Sample.nem (Sample.ok []) (Sample.ok []))
           (Sample.world (Sample.ok []) (Sample.ok [Sample.balance 9000000000000000]))
           900000000000000).
  - rewrite getTotalAvailableLevyAmount_run. vm_compute. reflexivity.
  - split; [lia | reflexivity].
Defined.

(** ** The methods of the explorer: what they touch and what they leave *)

(** X8. Without a "dim:coin" entry in the registry cache, or with an entry
    that has no levy, [getTotalAvailableLevyAmount] and
    [getTotalHoldersShareLevyAmount] throw a [TypeError] at line 135: no
    request is sent and the world stays as it is; the entry is not fetched. *)
Theorem levy_amount_needs_cached_levy (NEM : SDK) (w : World) :
  cache w !! "dim:coin" = None \/
  (exists coin, cache w !! "dim:coin" = Some coin /\ levy coin = None) ->
  getTotalAvailableLevyAmount NEM w = (Throws TypeError, w) /\
  getTotalHoldersShareLevyAmount NEM w = (Throws TypeError, w).
Proof.
  intros H.
  assert (Ha : getTotalAvailableLevyAmount NEM w = (Throws TypeError, w)).
  { rewrite getTotalAvailableLevyAmount_run.
    destruct H as [-> | (coin & -> & ->)]; reflexivity. }
  split; [exact Ha |].
  rewrite getTotalHoldersShareLevyAmount_run, Ha. reflexivity.
Qed.

Lemma levy_amount_needs_cached_levy_witness :
  let NEM := Sample.nem (Sample.ok []) (Sample.ok [Sample.balance 7]) in
  let empty := {| DIMParameters.mosaicParameters := ∅;
                  DIMParameters.getCoin := {| creator := "a1df5306355766bd" |};
                  DIMParameters.fromMosaicDefinition :=
                    DIMParameters.fromMosaicDefinition Sample.registry |} in
  let w := {| explorer := DIMExplorer.constructor empty
                            (Sample.api (Sample.ok []) (Sample.ok [Sample.balance 7]));
              sent := []; console := [] |} in
  getTotalAvailableLevyAmount NEM w = (Throws TypeError, w) /\
  getTotalHoldersShareLevyAmount NEM w = (Throws TypeError, w).
Proof.
  cbv zeta.
  apply (levy_amount_needs_cached_levy
           (Sample.nem (Sample.ok []) (Sample.ok [Sample.balance 7]))).
  left. reflexivity.
Defined.

(** X9. The two levy operations only read: whatever the world and however
    the call settles, the explorer (with its registry cache) and the
    console are as before, at most one request has been sent, and that
    request is a balance request to the node of [this.api]. The holder
    share leaves the same world as the pool amount. *)
Theorem levy_operations_only_read (NEM : SDK) (w : World) :
  let w' := snd (getTotalAvailableLevyAmount NEM w) in
  explorer w' = explorer w /\ console w' = console w /\
  (sent w' = sent w \/
   exists address,
     sent w' = (sent w ++ [OwnedMosaicsRequest (node (DIMExplorer.api (explorer w))) address])%list) /\
  snd (getTotalHoldersShareLevyAmount NEM w) = w'.
Proof.
  cbv zeta. rewrite getTotalHoldersShareLevyAmount_run, getTotalAvailableLevyAmount_run.
  destruct (cache w !! "dim:coin") as [coin |].
  2:{ split; [| split; [| split]]; try reflexivity. left. reflexivity. }
  destruct (levy coin) as [l |].
  2:{ split; [| split; [| split]]; try reflexivity. left. reflexivity. }
  cbv zeta. destruct (owned _ _ _ _);
    (split; [| split; [| split]]; try reflexivity;
     right; exists (recipient l); reflexivity).
Qed.

(** X10. [getCurrency] touches the registry cache under its own identifier
    only: whatever the world, every other entry of the cache, the
    explorer's own [mosaicParameters], its [api] and the console are as
    before; at most one request has been sent, a definitions request to the
    node of [this.api] for the namespace cut out of the identifier. *)
Theorem getCurrency_touches_one_entry (currency : string) (w : World) :
  let w' := snd (getCurrency currency w) in
  (forall other, other <> currency -> cache w' !! other = cache w !! other) /\
  DIMExplorer.mosaicParameters (explorer w') = DIMExplorer.mosaicParameters (explorer w) /\
  DIMExplorer.api (explorer w') = DIMExplorer.api (explorer w) /\
  console w' = console w /\
  (sent w' = sent w \/
   sent w' = (sent w ++ [MosaicDefinitionsRequest (node (DIMExplorer.api (explorer w)))
                                                  (JS.replace_1 currency)])%list).
Proof.
  cbv zeta.
  destruct (DIMExplorer.mosaicParameters (explorer w)) as [own |] eqn:Ho.
  - destruct (own !! currency) as [cached |] eqn:Hc.
    + rewrite (getCurrency_hit currency w own cached Ho Hc). cbn [snd].
      split; [| split; [| split; [| split]]];
        try reflexivity; try assumption. left. reflexivity.
    + rewrite (getCurrency_miss currency w own Ho Hc).
      destruct (mosaicDefinitions _ _ _ _) as [response | failure].
      * rewrite getCurrency_loop_run.
        destruct (matching_definition _ _ _) as [d |];
          cbn [snd after_request explorer sent console store
               DIMExplorer.set_parameters DIMExplorer.mosaicParameters DIMExplorer.api].
        -- split; [| split; [| split; [| split]]];
             try reflexivity; try assumption; [| right; reflexivity].
           intros other Hne. unfold cache.
           cbn [explorer DIMExplorer.parameters DIMExplorer.set_parameters
                DIMParameters.store DIMParameters.mosaicParameters].
           apply lookup_insert_ne. congruence.
        -- split; [| split; [| split; [| split]]];
             try reflexivity; try assumption. right. reflexivity.
      * cbn [snd after_request explorer sent console].
        split; [| split; [| split; [| split]]];
          try reflexivity; try assumption. right. reflexivity.
  - rewrite (getCurrency_undefined currency w Ho). cbn [snd].
    split; [| split; [| split; [| split]]];
      try reflexivity; try assumption. left. reflexivity.
Qed.

Lemma getCurrency_touches_one_entry_witness :
  let api := Sample.api (Sample.ok [Sample.dim_coin_definition]) (Sample.ok []) in
  let w := {| explorer := {| DIMExplorer.mosaicParameters := Some ∅;
                             DIMExplorer.parameters := Sample.registry;
                             DIMExplorer.api := api |};
              sent := []; console := [] |} in
  cache (snd (getCurrency "dim:token" w)) !! "dim:coin" = cache w !! "dim:coin".
Proof.
  cbv zeta.
  apply (proj1 (getCurrency_touches_one_entry "dim:token"
           {| explorer := {| DIMExplorer.mosaicParameters := Some ∅;
                             DIMExplorer.parameters := Sample.registry;
                             DIMExplorer.api :=
                               Sample.api (Sample.ok [Sample.dim_coin_definition])
                                          (Sample.ok []) |};
              sent := []; console := [] |}) "dim:coin").
  discriminate.
Defined.

(** X11. The balance is not cached: two calls of
    [getTotalAvailableLevyAmount] in a row send the balance request twice,
    and the second call returns what the node answers after the first
    request, not what the first call returned. *)
Theorem balance_is_fetched_on_every_call (NEM : SDK) (w : World)
  (coin : MosaicParameters) (l : LevyConfig) (first second : Response OwnedMosaic) :
  let api := DIMExplorer.api (explorer w) in
  let q := OwnedMosaicsRequest (node api) (recipient l) in
  cache w !! "dim:coin" = Some coin ->
  levy coin = Some l ->
  owned (sdk api) (sent w) (node api) (recipient l) = Fulfilled first ->
  owned (sdk api) (sent w ++ [q]) (node api) (recipient l) = Fulfilled second ->
  (a ← getTotalAvailableLevyAmount NEM;
   b ← getTotalAvailableLevyAmount NEM;
   mret (a, b)) w
  = (Returns (balance_in NEM first, balance_in NEM second),
     after_request q (after_request q w)).
Proof.
  intros api q Hc Hl H1 H2.
  rewrite bind_run, getTotalAvailableLevyAmount_run, Hc, Hl. cbv zeta.
  fold api. rewrite H1. fold q.
  rewrite bind_run, getTotalAvailableLevyAmount_run.
  unfold cache in *. cbn [after_request explorer sent]. rewrite Hc, Hl. cbv zeta.
  fold api. fold q. rewrite H2. reflexivity.
Qed.

Lemma balance_is_fetched_on_every_call_witness :
  let q := OwnedMosaicsRequest (node Growing.api) Sample.levy_account in
  (a ← getTotalAvailableLevyAmount Growing.nem;
   b ← getTotalAvailableLevyAmount Growing.nem;
   mret (a, b)) Growing.world
  = (Returns (1000000, 1000010), after_request q (after_request q Growing.world)).
Proof.
  cbv zeta.
  apply (balance_is_fetched_on_every_call Growing.nem Growing.world Sample.dim_coin
           {| recipient := Sample.levy_account; fee := 10; levyMosaic := "dim:coin" |}
           {| data := Some [Sample.balance 1000000] |}
           {| data := Some [Sample.balance 1000010] |}).
  - vm_compute. reflexivity.
  - reflexivity.
  - reflexivity.
  - reflexivity.
Defined.

(** ** The command [run], branch by branch *)

Lemma with_console_app (a b : list Event) (w : World) :
  with_console b (with_console a w) = with_console (a ++ b) w.
Proof. unfold with_console. cbn [explorer sent console]. rewrite app_assoc. reflexivity. Qed.

Lemma levy_step_run (flag isRawMode : bool) (m : Async Z) (title : string) (w : World) :
  levy_step flag isRawMode m title w =
  if flag then
    match m w with
    | (Returns amount, w') =>
        (Returns tt, with_console [Output isRawMode title amount "dim:coin"] w')
    | (Throws e, w') => (Throws e, w')
    end
  else (Returns tt, w).
Proof.
  unfold levy_step. destruct flag; [| reflexivity].
  rewrite bind_run. destruct (m w) as [[amount | e] w']; reflexivity.
Qed.

(** [run], cut into its steps. *)
Lemma run_steps (NEM : SDK) (fresh : DIMParameters.t) (this : Command) (env : Env)
  (w0 : World) :
  run NEM fresh this env w0 =
  let w1 := with_console (banner this env) w0 in
  if argv_is_help this then (Returns tt, with_console [Help; Exit] w1)
  else
    (_ ← levy_step (networkFee env) (raw env) (getTotalAvailableLevyAmount NEM)
                   "Total Network Fee ";
     _ ← levy_step (payoutFee env) (raw env) (getTotalHoldersShareLevyAmount NEM)
                   "Token Holder Fee Share: ";
     supply_step (raw env) (totalSupply_option env))
    (with_explorer (DIMExplorer.constructor fresh (command_api this)) w1).
Proof.
  unfold run. do 3 (rewrite bind_run, log_run).
  assert (Hw : {| explorer := explorer w0; sent := sent w0;
                  console := ((console w0 ++ (if raw env then [] else [Log ""]))
                              ++ (if raw env then []
                                  else [Log ("DIM Explorer v" ++ version this)]))
                             ++ (if raw env then [] else [Log ""]) |}
               = with_console (banner this env) w0).
  { unfold with_console, banner.
    destruct (raw env); cbn [app]; rewrite <- ?app_assoc, ?app_nil_r; reflexivity. }
  cbn [explorer sent console]. rewrite Hw. cbv zeta.
  destruct (argv_is_help this).
  - rewrite bind_run. unfold end_, print, with_console. cbn [explorer sent console].
    rewrite <- (app_assoc _ [Help] [Exit]). reflexivity.
  - rewrite bind_run. reflexivity.
Qed.

Lemma getTotalAvailableLevyAmount_levy_like (NEM : SDK) :
  levy_like (getTotalAvailableLevyAmount NEM).
Proof.
  intros w. rewrite getTotalAvailableLevyAmount_run.
  destruct (cache w !! "dim:coin") as [coin |]; [| left; reflexivity].
  destruct (levy coin) as [l |]; [| left; reflexivity].
  right. exists (recipient l). cbv zeta.
  destruct (owned _ _ _ _) as [response | failure].
  - right. eexists. reflexivity.
  - left. eexists. reflexivity.
Qed.

Lemma getTotalHoldersShareLevyAmount_levy_like (NEM : SDK) :
  levy_like (getTotalHoldersShareLevyAmount NEM).
Proof.
  intros w. rewrite getTotalHoldersShareLevyAmount_run.
  destruct (getTotalAvailableLevyAmount_levy_like NEM w) as [-> | (address & H)].
  - left. reflexivity.
  - right. exists address. cbv zeta in *.
    destruct H as [(e & ->) | (amount & ->)].
    + left. eexists. reflexivity.
    + right. eexists. reflexivity.
Qed.

Ltac report_parts :=
  split_and!; try assumption; try (cbn [length]; lia); try discriminate;
  try solve [constructor].

(** What a levy step adds to the world. *)
Lemma levy_step_report (flag isRawMode : bool) (m : Async Z) (title : string) (w : World) :
  levy_like m ->
  title = "Total Network Fee " \/ title = "Token Holder Fee Share: " ->
  exists evs qs,
    explorer (snd (levy_step flag isRawMode m title w)) = explorer w /\
    console (snd (levy_step flag isRawMode m title w)) = (console w ++ evs)%list /\
    sent (snd (levy_step flag isRawMode m title w)) = (sent w ++ qs)%list /\
    quiet evs /\
    Forall (is_balance_request_to (node (DIMExplorer.api (explorer w)))) qs /\
    (length qs <= count flag)%nat /\
    (forall e, fst (levy_step flag isRawMode m title w) = Throws e -> evs = []).
Proof.
  intros Hm Ht. rewrite levy_step_run. destruct flag.
  2:{ exists [], []. cbn [snd fst]. rewrite !app_nil_r.
      repeat split; try constructor. }
  assert (Hq : forall a, quiet [Output isRawMode title a "dim:coin"]).
  { intros a. constructor; [| constructor]. cbn.
    destruct Ht as [-> | ->]; repeat split; reflexivity. }
  destruct (Hm w) as [-> | (address & H)].
  - exists [], []. cbn [snd fst]. rewrite !app_nil_r.
    repeat split; try constructor. cbn. lia.
  - cbv zeta in H.
    assert (Hb : Forall (is_balance_request_to (node (DIMExplorer.api (explorer w))))
                   [OwnedMosaicsRequest (node (DIMExplorer.api (explorer w))) address]).
    { constructor; [exists address; reflexivity | constructor]. }
    destruct H as [(e & ->) | (amount & ->)].
    + exists [], [OwnedMosaicsRequest (node (DIMExplorer.api (explorer w))) address].
      cbn [snd fst after_request explorer sent console]. rewrite app_nil_r.
      repeat split; try assumption; try constructor.
    + exists [Output isRawMode title amount "dim:coin"],
             [OwnedMosaicsRequest (node (DIMExplorer.api (explorer w))) address].
      cbn [snd fst after_request with_console explorer sent console].
      repeat split; try assumption; try apply Hq; try constructor.
      discriminate.
Qed.

(** On an explorer as the constructor builds it, the last step throws for
    every identifier that passes the check. *)
Lemma supply_step_run (isRawMode : bool) (option : option string) (w : World) :
  DIMExplorer.mosaicParameters (explorer w) = None ->
  supply_step isRawMode option w =
  match truthy option with
  | Some currency =>
      if JS.matches currency then (Throws TypeError, w)
      else (Returns tt, with_console [Help; Exit] w)
  | None => (Returns tt, with_console [Exit] w)
  end.
Proof.
  intros Ho. unfold supply_step. destruct (truthy option) as [currency |].
  - destruct (JS.matches currency); cbn [negb].
    + rewrite bind_run, getTotalCirculatingSupply_run,
        (getCurrency_undefined currency w Ho). reflexivity.
    + rewrite bind_run. unfold end_, print, with_console. cbn [explorer sent console].
      rewrite <- (app_assoc _ [Help] [Exit]). reflexivity.
  - reflexivity.
Qed.

(** What one run of the command adds to the world: the banner, then events
    that are neither log lines nor exits nor anything but levy amounts,
    then the exit if the run returns; and balance requests to the node of
    the command's API, at most one for each levy option. *)
Lemma run_report (NEM : SDK) (fresh : DIMParameters.t) (this : Command) (env : Env)
  (w0 : World) :
  exists evs qs,
    quiet evs /\
    Forall (is_balance_request_to (node (command_api this))) qs /\
    (length qs <= count (networkFee env) + count (payoutFee env))%nat /\
    (argv_is_help this = true -> qs = []) /\
    sent (snd (run NEM fresh this env w0)) = (sent w0 ++ qs)%list /\
    ((fst (run NEM fresh this env w0) = Returns tt /\
      console (snd (run NEM fresh this env w0))
        = (console w0 ++ banner this env ++ evs ++ [Exit])%list) \/
     (exists e, fst (run NEM fresh this env w0) = Throws e /\
      console (snd (run NEM fresh this env w0))
        = (console w0 ++ banner this env ++ evs)%list)) /\
    (argv_is_help this = false ->
     forall currency, truthy (totalSupply_option env) = Some currency ->
       JS.matches currency = true ->
       exists e, fst (run NEM fresh this env w0) = Throws e).
Proof.
  assert (Hhelp : quiet [Help]).
  { constructor; [repeat split; reflexivity | constructor]. }
  rewrite run_steps. cbv zeta. destruct (argv_is_help this).
  { exists [Help], []. cbn [fst snd with_console explorer sent console].
    rewrite app_nil_r, <- !app_assoc. cbn [app].
    report_parts.
    left. split; reflexivity. }
  set (w2 := with_explorer (DIMExplorer.constructor fresh (command_api this))
                           (with_console (banner this env) w0)).
  destruct (levy_step_report (networkFee env) (raw env) (getTotalAvailableLevyAmount NEM)
              "Total Network Fee " w2 (getTotalAvailableLevyAmount_levy_like NEM)
              ltac:(left; reflexivity))
    as (evs1 & qs1 & He1 & Hc1 & Hs1 & Hq1 & Hb1 & Hl1 & Ht1).
  rewrite bind_run.
  destruct (levy_step (networkFee env) (raw env) (getTotalAvailableLevyAmount NEM)
              "Total Network Fee " w2) as [[u1 | e1] w3]; cbn [fst snd] in *.
  2:{ exists evs1, qs1. rewrite (Ht1 e1 eq_refl) in *. rewrite Hs1, Hc1.
      cbn [w2 with_explorer with_console explorer sent console
           DIMExplorer.constructor DIMExplorer.api] in *.
      rewrite app_nil_r, <- ?app_assoc.
      report_parts.
      - right. exists e1. rewrite app_nil_r. split; reflexivity.
      - intros _ currency _ _. exists e1. reflexivity. }
  destruct (levy_step_report (payoutFee env) (raw env) (getTotalHoldersShareLevyAmount NEM)
              "Token Holder Fee Share: " w3 (getTotalHoldersShareLevyAmount_levy_like NEM)
              ltac:(right; reflexivity))
    as (evs2 & qs2 & He2 & Hc2 & Hs2 & Hq2 & Hb2 & Hl2 & Ht2).
  rewrite bind_run.
  destruct (levy_step (payoutFee env) (raw env) (getTotalHoldersShareLevyAmount NEM)
              "Token Holder Fee Share: " w3) as [[u2 | e2] w4]; cbn [fst snd] in *.
  2:{ exists (evs1 ++ evs2)%list, (qs1 ++ qs2)%list. rewrite (Ht2 e2 eq_refl) in *.
      rewrite Hs2, Hc2, Hs1, Hc1.
      rewrite He1 in Hb2.
      cbn [w2 with_explorer with_console explorer sent console
           DIMExplorer.constructor DIMExplorer.api] in *.
      rewrite !app_nil_r, <- ?app_assoc, length_app.
      report_parts.
      - apply Forall_app; split; assumption.
      - right. exists e2. split; reflexivity.
      - intros _ currency _ _. exists e2. reflexivity. }
  assert (Ho : DIMExplorer.mosaicParameters (explorer w4) = None).
  { rewrite He2, He1. reflexivity. }
  rewrite (supply_step_run _ _ _ Ho).
  rewrite He1 in Hb2.
  cbn [w2 with_explorer with_console explorer sent console
       DIMExplorer.constructor DIMExplorer.api] in *.
  assert (Hq12 : quiet (evs1 ++ evs2)) by (apply Forall_app; split; assumption).
  assert (Hb12 : Forall (is_balance_request_to (node (command_api this))) (qs1 ++ qs2))
    by (apply Forall_app; split; assumption).
  destruct (truthy (totalSupply_option env)) as [currency |].
  - destruct (JS.matches currency) eqn:Hm.
    + exists (evs1 ++ evs2)%list, (qs1 ++ qs2)%list. cbn [fst snd].
      rewrite Hs2, Hc2, Hs1, Hc1, <- ?app_assoc, length_app.
      report_parts.
      * right. exists TypeError. split; reflexivity.
      * intros _ c _ _. exists TypeError. reflexivity.
    + exists (evs1 ++ evs2 ++ [Help])%list, (qs1 ++ qs2)%list.
      cbn [fst snd with_console explorer sent console].
      rewrite Hs2, Hc2, Hs1, Hc1, <- ?app_assoc, length_app. cbn [app].
      report_parts.
      * apply Forall_app; split; [assumption |].
        apply Forall_app; split; assumption.
      * left. split; reflexivity.
      * intros _ c [= <-] Hc. congruence.
  - exists (evs1 ++ evs2)%list, (qs1 ++ qs2)%list.
    cbn [fst snd with_console explorer sent console].
    rewrite Hs2, Hc2, Hs1, Hc1, <- ?app_assoc, length_app.
    report_parts.
    left. split; reflexivity.
Qed.

(** X12. In raw mode the command prints no log line: everything a run
    with [--raw] adds to the console is an amount, the help or the exit. *)
Theorem raw_mode_prints_no_log_line (NEM : SDK) (fresh : DIMParameters.t)
  (this : Command) (env : Env) (w0 : World) :
  raw env = true ->
  exists evs,
    console (snd (run NEM fresh this env w0)) = (console w0 ++ evs)%list /\
    Forall (fun ev => is_Log ev = false) evs.
Proof.
  intros Hraw.
  destruct (run_report NEM fresh this env w0)
    as (evs & qs & Hq & _ & _ & _ & _ & Hc & _).
  assert (Hb : banner this env = []) by (unfold banner; rewrite Hraw; reflexivity).
  assert (Hl : Forall (fun ev => is_Log ev = false) evs).
  { eapply Forall_impl; [exact Hq |]. intros ev (H & _). exact H. }
  rewrite Hb in Hc. cbn [app] in Hc.
  destruct Hc as [[_ Hc] | (e & _ & Hc)].
  - exists (evs ++ [Exit])%list. split; [exact Hc |].
    apply Forall_app. split; [exact Hl |]. constructor; [reflexivity | constructor].
  - exists evs. split; [exact Hc | exact Hl].
Qed.

Lemma raw_mode_prints_no_log_line_witness :
  let NEM := Sample.nem (Sample.ok []) (Sample.ok [Sample.balance 7]) in
  let this := {| argv_is_help := false;
                 command_api := Sample.api (Sample.ok []) (Sample.ok [Sample.balance 7]);
                 version := "1.0.0" |} in
  let env := {| raw := true; networkFee := true; payoutFee := true;
                totalSupply_option := None |} in
  let w0 := Sample.world (Sample.ok []) (Sample.ok []) in
  exists evs,
    console (snd (run NEM Sample.registry this env w0)) = (console w0 ++ evs)%list /\
    Forall (fun ev => is_Log ev = false) evs.
Proof.
  cbv zeta.
  apply (raw_mode_prints_no_log_line
           (Sample.nem (Sample.ok []) (Sample.ok [Sample.balance 7])) Sample.registry
           {| argv_is_help := false;
              command_api := Sample.api (Sample.ok []) (Sample.ok [Sample.balance 7]);
              version := "1.0.0" |}
           {| raw := true; networkFee := true; payoutFee := true;
              totalSupply_option := None |}).
  reflexivity.
Defined.

(** X13. Whatever the options, a run of the command sends nothing but
    balance requests to the node of its API, at most one for [--networkFee]
    and one for [--payoutFee]; it sends nothing when help is asked, and
    [--totalSupply] adds no request. *)
Theorem run_sends_only_balance_requests (NEM : SDK) (fresh : DIMParameters.t)
  (this : Command) (env : Env) (w0 : World) :
  exists qs,
    sent (snd (run NEM fresh this env w0)) = (sent w0 ++ qs)%list /\
    Forall (is_balance_request_to (node (command_api this))) qs /\
    (length qs <= count (networkFee env) + count (payoutFee env))%nat /\
    (argv_is_help this = true -> qs = []).
Proof.
  destruct (run_report NEM fresh this env w0)
    as (evs & qs & _ & Hb & Hl & Hh & Hs & _ & _).
  exists qs. split_and!; assumption.
Qed.

(** X14. The command exits the process exactly when [run] returns: then
    the exit is the last thing it does; when [run] throws (a transport
    failure, a [TypeError]) no exit has been called. *)
Theorem run_exits_exactly_when_it_returns (NEM : SDK) (fresh : DIMParameters.t)
  (this : Command) (env : Env) (w0 : World) :
  exists evs,
    Forall (fun ev => is_Exit ev = false) evs /\
    ((fst (run NEM fresh this env w0) = Returns tt /\
      console (snd (run NEM fresh this env w0)) = (console w0 ++ evs ++ [Exit])%list) \/
     (exists e, fst (run NEM fresh this env w0) = Throws e /\
      console (snd (run NEM fresh this env w0)) = (console w0 ++ evs)%list)).
Proof.
  destruct (run_report NEM fresh this env w0)
    as (evs & qs & Hq & _ & _ & _ & _ & Hc & _).
  exists (banner this env ++ evs)%list. split.
  - apply Forall_app. split.
    + unfold banner. destruct (raw env); repeat constructor.
    + eapply Forall_impl; [exact Hq |]. intros ev (_ & H & _). exact H.
  - rewrite <- !app_assoc. exact Hc.
Qed.

(** X15. The command never prints a total supply. Every amount it prints
    is the network fee or the holder share, in "dim:coin"; and a run that
    is asked for the total supply of an identifier that passes the check
    (it holds a colon) throws, by the [TypeError] of [getCurrency] unless a
    levy request failed before. *)
Theorem run_never_prints_a_total_supply (NEM : SDK) (fresh : DIMParameters.t)
  (this : Command) (env : Env) (w0 : World) :
  exists evs,
    console (snd (run NEM fresh this env w0)) = (console w0 ++ evs)%list /\
    Forall (fun ev => is_levy_output ev = true) evs /\
    (argv_is_help this = false ->
     forall currency, truthy (totalSupply_option env) = Some currency ->
       JS.matches currency = true ->
       exists e, fst (run NEM fresh this env w0) = Throws e).
Proof.
  destruct (run_report NEM fresh this env w0)
    as (evs & qs & Hq & _ & _ & _ & _ & Hc & Ht).
  assert (Hb : Forall (fun ev => is_levy_output ev = true) (banner this env)).
  { unfold banner. destruct (raw env); repeat constructor. }
  assert (Hl : Forall (fun ev => is_levy_output ev = true) evs).
  { eapply Forall_impl; [exact Hq |]. intros ev (_ & _ & H). exact H. }
  destruct Hc as [[_ Hc] | (e & _ & Hc)].
  - exists (banner this env ++ evs ++ [Exit])%list. split; [exact Hc |].
    split; [| exact Ht].
    apply Forall_app. split; [exact Hb |].
    apply Forall_app. split; [exact Hl |]. repeat constructor.
  - exists (banner this env ++ evs)%list. split; [exact Hc |].
    split; [| exact Ht]. apply Forall_app. split; assumption.
Qed.

Lemma run_never_prints_a_total_supply_witness :
  let NEM := Sample.nem (Sample.ok [Sample.dim_coin_definition]) (Sample.ok []) in
  let this := {| argv_is_help := false;
                 command_api := Sample.api (Sample.ok [Sample.dim_coin_definition])
                                           (Sample.ok []);
                 version := "1.0.0" |} in
  let env := {| raw := false; networkFee := false; payoutFee := false;
                totalSupply_option := Some "dim:coin" |} in
  exists e, fst (run NEM Sample.registry this env
                     (Sample.world (Sample.ok []) (Sample.ok []))) = Throws e.
Proof.
  cbv zeta.
  destruct (run_never_prints_a_total_supply
              (Sample.nem (Sample.ok [Sample.dim_coin_definition]) (Sample.ok []))
              Sample.registry
              {| argv_is_help := false;
                 command_api := Sample.api (Sample.ok [Sample.dim_coin_definition])
                                           (Sample.ok []);
                 version := "1.0.0" |}
              {| raw := false; networkFee := false; payoutFee := false;
                 totalSupply_option := Some "dim:coin" |}
              (Sample.world (Sample.ok []) (Sample.ok []))) as (evs & _ & _ & H).
  apply (H eq_refl "dim:coin"); reflexivity.
Defined.

Lemma getTotalAvailableLevyAmount_fulfilled (NEM : SDK) (w : World)
  (coin : MosaicParameters) (l : LevyConfig) (response : Response OwnedMosaic) :
  let api := DIMExplorer.api (explorer w) in
  cache w !! "dim:coin" = Some coin ->
  levy coin = Some l ->
  owned (sdk api) (sent w) (node api) (recipient l) = Fulfilled response ->
  getTotalAvailableLevyAmount NEM w =
  (Returns (balance_in NEM response),
   after_request (OwnedMosaicsRequest (node api) (recipient l)) w).
Proof.
  intros api Hc Hl Ho. rewrite getTotalAvailableLevyAmount_run, Hc, Hl.
  cbv zeta. fold api. rewrite Ho. reflexivity.
Qed.

Lemma getTotalAvailableLevyAmount_rejected (NEM : SDK) (w : World)
  (coin : MosaicParameters) (l : LevyConfig) (failure : string) :
  let api := DIMExplorer.api (explorer w) in
  cache w !! "dim:coin" = Some coin ->
  levy coin = Some l ->
  owned (sdk api) (sent w) (node api) (recipient l) = Rejected failure ->
  getTotalAvailableLevyAmount NEM w =
  (Throws (TransportFailure failure),
   after_request (OwnedMosaicsRequest (node api) (recipient l)) w).
Proof.
  intros api Hc Hl Ho. rewrite getTotalAvailableLevyAmount_run, Hc, Hl.
  cbv zeta. fold api. rewrite Ho. reflexivity.
Qed.

(** X16. [--networkFee] alone, with "dim:coin" and its levy in the registry
    that [new DIMParameters()] builds and a fulfilled balance request: the
    command sends that one request for the levy recipient, prints the
    amount found under the title "Total Network Fee " and exits. The
    explorer it uses is a new one: what an earlier explorer held plays no
    part. *)
Theorem run_prints_the_network_fee (NEM : SDK) (fresh : DIMParameters.t)
  (this : Command) (env : Env) (w0 : World)
  (coin : MosaicParameters) (l : LevyConfig) (response : Response OwnedMosaic) :
  let api := command_api this in
  argv_is_help this = false ->
  networkFee env = true -> payoutFee env = false ->
  truthy (totalSupply_option env) = None ->
  DIMParameters.mosaicParameters fresh !! "dim:coin" = Some coin ->
  levy coin = Some l ->
  owned (sdk api) (sent w0) (node api) (recipient l) = Fulfilled response ->
  run NEM fresh this env w0 =
  (Returns tt,
   {| explorer := DIMExplorer.constructor fresh api;
      sent := sent w0 ++ [OwnedMosaicsRequest (node api) (recipient l)];
      console := console w0 ++ banner this env ++
                 [Output (raw env) "Total Network Fee " (balance_in NEM response) "dim:coin";
                  Exit] |}).
Proof.
  intros api Hh Hn Hp Ht Hc Hl Ho.
  rewrite run_steps, Hh, Hn, Hp. cbv zeta.
  set (w2 := with_explorer (DIMExplorer.constructor fresh (command_api this))
                           (with_console (banner this env) w0)).
  rewrite bind_run, levy_step_run.
  rewrite (getTotalAvailableLevyAmount_fulfilled NEM w2 coin l response Hc Hl Ho).
  rewrite bind_run, levy_step_run.
  rewrite supply_step_run by reflexivity. rewrite Ht.
  unfold w2, with_console, with_explorer, after_request.
  cbn [explorer sent console DIMExplorer.constructor DIMExplorer.api].
  rewrite <- !app_assoc. reflexivity.
Qed.

Lemma run_prints_the_network_fee_witness :
  let NEM := Sample.nem (Sample.ok []) (Sample.ok []) in
  let api := Sample.api (Sample.ok []) (Sample.ok [Sample.balance 1000000]) in
  let this := {| argv_is_help := false; command_api := api; version := "1.0.0" |} in
  let env := {| raw := true; networkFee := true; payoutFee := false;
                totalSupply_option := Some EmptyString |} in
  run NEM Sample.registry this env Growing.world =
  (Returns tt,
   {| explorer := DIMExplorer.constructor Sample.registry api;
      sent := [OwnedMosaicsRequest (node api) Sample.levy_account];
      console := [Output true "Total Network Fee " 1000000 "dim:coin"; Exit] |}).
Proof.
  cbv zeta.
  apply (run_prints_the_network_fee
           (Sample.nem (Sample.ok []) (Sample.ok [])) Sample.registry
           {| argv_is_help := false;
              command_api := Sample.api (Sample.ok []) (Sample.ok [Sample.balance 1000000]);
              version := "1.0.0" |}
           {| raw := true; networkFee := true; payoutFee := false;
              totalSupply_option := Some EmptyString |}
           Growing.world Sample.dim_coin
           {| recipient := Sample.levy_account; fee := 10; levyMosaic := "dim:coin" |}
           {| data := Some [Sample.balance 1000000] |});
    first [reflexivity | vm_compute; reflexivity].
Defined.

(** X17. [--networkFee] together with [--payoutFee]: the command asks the
    node for the balance twice and computes the holder share from the
    second answer. It prints the first amount as the network fee and thirty
    percent of the second as the holder share, so the two lines need not
    belong together when the balance moved in between. *)
Theorem run_asks_for_the_balance_twice (NEM : SDK) (fresh : DIMParameters.t)
  (this : Command) (env : Env) (w0 : World)
  (coin : MosaicParameters) (l : LevyConfig) (first second : Response OwnedMosaic) :
  let api := command_api this in
  let q := OwnedMosaicsRequest (node api) (recipient l) in
  argv_is_help this = false ->
  networkFee env = true -> payoutFee env = true ->
  truthy (totalSupply_option env) = None ->
  DIMParameters.mosaicParameters fresh !! "dim:coin" = Some coin ->
  levy coin = Some l ->
  owned (sdk api) (sent w0) (node api) (recipient l) = Fulfilled first ->
  owned (sdk api) (sent w0 ++ [q]) (node api) (recipient l) = Fulfilled second ->
  run NEM fresh this env w0 =
  (Returns tt,
   {| explorer := DIMExplorer.constructor fresh api;
      sent := sent w0 ++ [q; q];
      console := console w0 ++ banner this env ++
                 [Output (raw env) "Total Network Fee " (balance_in NEM first) "dim:coin";
                  Output (raw env) "Token Holder Fee Share: "
                         (thirtyPercentLevyAmount (balance_in NEM second)) "dim:coin";
                  Exit] |}).
Proof.
  intros api q Hh Hn Hp Ht Hc Hl H1 H2.
  rewrite run_steps, Hh, Hn, Hp. cbv zeta.
  set (w2 := with_explorer (DIMExplorer.constructor fresh (command_api this))
                           (with_console (banner this env) w0)).
  rewrite bind_run, levy_step_run.
  rewrite (getTotalAvailableLevyAmount_fulfilled NEM w2 coin l first Hc Hl H1).
  set (w3 := with_console
               [Output (raw env) "Total Network Fee " (balance_in NEM first) "dim:coin"]
               (after_request (OwnedMosaicsRequest (node (DIMExplorer.api (explorer w2)))
                                                   (recipient l)) w2)).
  rewrite bind_run, levy_step_run, getTotalHoldersShareLevyAmount_run.
  rewrite (getTotalAvailableLevyAmount_fulfilled NEM w3 coin l second Hc Hl H2).
  rewrite supply_step_run by reflexivity. rewrite Ht.
  unfold w3, w2, with_console, with_explorer, after_request.
  cbn [explorer sent console DIMExplorer.constructor DIMExplorer.api].
  rewrite <- !app_assoc. reflexivity.
Qed.

Lemma run_asks_for_the_balance_twice_witness :
  let this := {| argv_is_help := false; command_api := Growing.api; version := "1.0.0" |} in
  let env := {| raw := true; networkFee := true; payoutFee := true;
                totalSupply_option := None |} in
  let q := OwnedMosaicsRequest (node Growing.api) Sample.levy_account in
  run Growing.nem Sample.registry this env Growing.world =
  (Returns tt,
   {| explorer := DIMExplorer.constructor Sample.registry Growing.api;
      sent := [q; q];
      console := [Output true "Total Network Fee " 1000000 "dim:coin";
                  Output true "Token Holder Fee Share: " 300003 "dim:coin";
                  Exit] |}).
Proof.
  cbv zeta.
  apply (run_asks_for_the_balance_twice Growing.nem Sample.registry
           {| argv_is_help := false; command_api := Growing.api; version := "1.0.0" |}
           {| raw := true; networkFee := true; payoutFee := true;
              totalSupply_option := None |}
           Growing.world Sample.dim_coin
           {| recipient := Sample.levy_account; fee := 10; levyMosaic := "dim:coin" |}
           {| data := Some [Sample.balance 1000000] |}
           {| data := Some [Sample.balance 1000010] |});
    first [reflexivity | vm_compute; reflexivity].
Defined.

(** X18. When the node rejects the first balance request of a run (for
    [--networkFee], or for [--payoutFee] without it), [run] throws that
    failure: after the banner nothing is printed, no amount and no help,
    the process is not exited, and nothing more is sent. *)
Theorem run_throws_the_transport_failure (NEM : SDK) (fresh : DIMParameters.t)
  (this : Command) (env : Env) (w0 : World)
  (coin : MosaicParameters) (l : LevyConfig) (failure : string) :
  let api := command_api this in
  argv_is_help this = false ->
  networkFee env || payoutFee env = true ->
  DIMParameters.mosaicParameters fresh !! "dim:coin" = Some coin ->
  levy coin = Some l ->
  owned (sdk api) (sent w0) (node api) (recipient l) = Rejected failure ->
  run NEM fresh this env w0 =
  (Throws (TransportFailure failure),
   {| explorer := DIMExplorer.constructor fresh api;
      sent := sent w0 ++ [OwnedMosaicsRequest (node api) (recipient l)];
      console := console w0 ++ banner this env |}).
Proof.
  intros api Hh Hf Hc Hl Ho.
  rewrite run_steps, Hh. cbv zeta.
  set (w2 := with_explorer (DIMExplorer.constructor fresh (command_api this))
                           (with_console (banner this env) w0)).
  pose proof (getTotalAvailableLevyAmount_rejected NEM w2 coin l failure Hc Hl Ho) as Hr.
  rewrite bind_run, levy_step_run.
  destruct (networkFee env).
  - rewrite Hr. reflexivity.
  - cbn [orb] in Hf. rewrite Hf.
    rewrite bind_run, levy_step_run, getTotalHoldersShareLevyAmount_run, Hr.
    reflexivity.
Qed.

Lemma run_throws_the_transport_failure_witness :
  let NEM := Sample.nem (Sample.ok []) (Sample.ok []) in
  let api := Sample.api (Sample.ok []) (Rejected "timeout") in
  let this := {| argv_is_help := false; command_api := api; version := "1.0.0" |} in
  let env := {| raw := false; networkFee := false; payoutFee := true;
                totalSupply_option := Some "dim:coin" |} in
  run NEM Sample.registry this env Growing.world =
  (Throws (TransportFailure "timeout"),
   {| explorer := DIMExplorer.constructor Sample.registry api;
      sent := [OwnedMosaicsRequest (node api) Sample.levy_account];
      console := [Log ""; Log "DIM Explorer v1.0.0"; Log ""] |}).
Proof.
  cbv zeta.
  apply (run_throws_the_transport_failure
           (Sample.nem (Sample.ok []) (Sample.ok [])) Sample.registry
           {| argv_is_help := false;
              command_api := Sample.api (Sample.ok []) (Rejected "timeout");
              version := "1.0.0" |}
           {| raw := false; networkFee := false; payoutFee := true;
              totalSupply_option := Some "dim:coin" |}
           Growing.world Sample.dim_coin
           {| recipient := Sample.levy_account; fee := 10; levyMosaic := "dim:coin" |}
           "timeout");
    first [reflexivity | vm_compute; reflexivity].
Defined.

(** ** The formatting of an amount *)

(** The rounded significand is brought back to 53 bits and checked against
    the overflow threshold. *)
Lemma round_tail (sx : bool) (m2 e : Z) :
  2 ^ 52 <= m2 <= 2 ^ 53 -> -1021 <= 53 + e -> 54 + e <= 1024 ->
  exists m' e',
    (let '(mrs, e'') := shr_fexp 53 1024 m2 e loc_Exact in
     match shr_m mrs with
     | Z0 => S754_zero sx
     | Zpos m => if e'' <=? 1024 - 53 then S754_finite sx m e'' else S754_infinity sx
     | Zneg _ => S754_nan
     end) = S754_finite sx m' e' /\
    e <= e' <= e + 1 /\ Z.pos m' * 2 ^ (e' - e) = m2.
Proof.
  intros Hm He1 He2.
  change (2 ^ 52) with 4503599627370496 in Hm.
  change (2 ^ 53) with 9007199254740992 in Hm.
  destruct m2 as [| pm | pm]; try (exfalso; lia).
  unfold shr_fexp. cbn [Zdigits2].
  destruct (Z.eq_dec (Z.pos pm) 9007199254740992) as [Hc | Hc].
  - assert (Hpm : pm = 9007199254740992%positive) by congruence.
    subst pm. change (Z.pos (digits2_pos 9007199254740992)) with 54.
    rewrite fexp_normal by lia.
    replace (54 + e - 53 - e) with 1 by lia.
    cbn [shr shr_record_of_loc SpecFloat.iter_pos shr_1 shr_m].
    replace (e + 1 <=? 1024 - 53) with true by (symmetry; apply Z.leb_le; lia).
    exists 4503599627370496%positive, (e + 1).
    split; [reflexivity |]. split; [lia |].
    replace (e + 1 - e) with 1 by lia. reflexivity.
  - assert (Hdm : Z.pos (digits2_pos pm) = 53).
    { apply digits2_pos_unique. change (2 ^ (53 - 1)) with 4503599627370496.
      change (2 ^ 53) with 9007199254740992. lia. }
    rewrite Hdm, fexp_normal by lia.
    replace (53 + e - 53 - e) with 0 by lia.
    cbn [shr shr_record_of_loc shr_m].
    replace (e <=? 1024 - 53) with true by (symmetry; apply Z.leb_le; lia).
    exists pm, e. split; [reflexivity |]. split; [lia |].
    replace (e - e) with 0 by lia. change (2 ^ 0) with 1. lia.
Qed.

Lemma loc_of_record_of_loc (m : Z) (l : location) :
  loc_of_shr_record (shr_record_of_loc m l) = l /\ shr_m (shr_record_of_loc m l) = m.
Proof. destruct l as [| []]; split; reflexivity. Qed.

Lemma div_round_error (D q r : Z) :
  0 <= r < D ->
  q <= div_round D q r <= q + 1 /\
  - D <= 2 * (div_round D q r * D - (q * D + r)) <= D.
Proof.
  intros Hr. unfold div_round, div_location.
  destruct (r =? 0) eqn:E.
  - apply Z.eqb_eq in E. subst r. cbn [round_nearest_even]. lia.
  - apply Z.eqb_neq in E. cbn [round_nearest_even].
    destruct (Z.compare_spec (2 * r) D); [destruct (Z.even q) | |]; lia.
Qed.

(** A quotient of 53 bits: rounded where it stands. *)
Lemma binary_round_aux_div_53 (sx : bool) (q e D r : Z) :
  2 ^ 52 <= q < 2 ^ 53 -> 0 <= r < D -> -1021 <= 53 + e -> 54 + e <= 1024 ->
  exists m' e',
    binary_round_aux 53 1024 sx q e (div_location D r) = S754_finite sx m' e' /\
    e <= e' <= e + 1 /\ Z.pos m' * 2 ^ (e' - e) = div_round D q r.
Proof.
  intros Hq Hr He1 He2.
  pose proof (div_round_error D q r Hr) as [Hb _].
  assert (Hd : Zdigits2 q = 53).
  { change (2 ^ 52) with 4503599627370496 in Hq.
    destruct q as [| pq | pq]; try lia. cbn [Zdigits2].
    apply digits2_pos_unique. exact Hq. }
  unfold binary_round_aux. unfold shr_fexp at 1. rewrite Hd, fexp_normal by lia.
  replace (53 + e - 53 - e) with 0 by lia. cbn [shr].
  destruct (loc_of_record_of_loc q (div_location D r)) as [-> ->].
  fold (div_round D q r).
  apply round_tail; lia.
Qed.

(** A quotient of 54 bits: its last bit is dropped before the rounding. *)
Lemma binary_round_aux_div_54 (sx : bool) (q e D r : Z) :
  2 ^ 53 <= q < 2 ^ 54 -> 0 <= r < D -> -1021 <= 54 + e -> 55 + e <= 1024 ->
  exists m' e',
    binary_round_aux 53 1024 sx q e (div_location D r) = S754_finite sx m' e' /\
    e + 1 <= e' <= e + 2 /\
    - D <= 2 * (Z.pos m' * 2 ^ (e' - e - 1)) * D - (q * D + r) <= D.
Proof.
  intros Hq Hr He1 He2.
  change (2 ^ 53) with 9007199254740992 in Hq.
  change (2 ^ 54) with 18014398509481984 in Hq.
  assert (Hd : Zdigits2 q = 54).
  { destruct q as [| pq | pq]; try lia. cbn [Zdigits2].
    apply digits2_pos_unique. change (2 ^ (54 - 1)) with 9007199254740992.
    change (2 ^ 54) with 18014398509481984. exact Hq. }
  unfold binary_round_aux. unfold shr_fexp at 1. rewrite Hd, fexp_normal by lia.
  replace (54 + e - 53 - e) with 1 by lia. cbn [shr SpecFloat.iter_pos].
  set (mrs := shr_1 (shr_record_of_loc q (div_location D r))).
  set (R := round_nearest_even (shr_m mrs) (loc_of_shr_record mrs)).
  assert (HR : 2 ^ 52 <= R <= 2 ^ 53 /\ - D <= 2 * R * D - (q * D + r) <= D).
  { change (2 ^ 52) with 4503599627370496. change (2 ^ 53) with 9007199254740992.
    subst R mrs. unfold div_location.
    destruct q as [| [pq | pq |] | pq]; try lia.
    - (* an odd quotient *)
      pose proof (Pos2Z.inj_xI pq) as Hpq.
      destruct (r =? 0) eqn:E.
      + apply Z.eqb_eq in E. subst r.
        cbn [shr_record_of_loc shr_1 orb shr_m loc_of_shr_record round_nearest_even].
        destruct (Z.even (Z.pos pq)); lia.
      + apply Z.eqb_neq in E.
        destruct (2 * r ?= D);
          cbn [shr_record_of_loc shr_1 orb shr_m loc_of_shr_record round_nearest_even];
          lia.
    - (* an even quotient *)
      pose proof (Pos2Z.inj_xO pq) as Hpq.
      destruct (r =? 0) eqn:E.
      + apply Z.eqb_eq in E. subst r.
        cbn [shr_record_of_loc shr_1 orb shr_m loc_of_shr_record round_nearest_even].
        lia.
      + apply Z.eqb_neq in E.
        destruct (2 * r ?= D);
          cbn [shr_record_of_loc shr_1 orb shr_m loc_of_shr_record round_nearest_even];
          lia. }
  destruct HR as [HR1 HR2].
  destruct (round_tail sx R (e + 1) HR1) as (m' & e' & -> & He' & Hm'); try lia.
  exists m', e'. split; [reflexivity |]. split; [lia |].
  replace (e' - e - 1) with (e' - (e + 1)) by lia. rewrite Hm'. exact HR2.
Qed.

(** [Math.pow(10, 6)] as a number: [10^6 = 8589934592000000 * 2^-33]. *)
Lemma pow_10_6_eq : Fixed.pow_10_6 = S754_finite false 8589934592000000 (-33).
Proof. vm_compute. reflexivity. Qed.

(** The division of a number of 53 bits by [10^6]: the quotient and the
    remainder of the significand, shifted by 53 bits, are rounded. *)
Lemma div_pow_10_6 (mv : positive) (c : Z) :
  Z.pos (digits2_pos mv) = 53 -> 0 <= c <= 52 ->
  let D := 8589934592000000 in
  let q := (Z.pos mv * 2 ^ 53) / D in
  let r := (Z.pos mv * 2 ^ 53) mod D in
  Fixed.div (S754_finite false mv (- c)) Fixed.pow_10_6 =
  binary_round_aux 53 1024 false q (- c - 20) (div_location D r).
Proof.
  intros Hd Hc D q r. rewrite pow_10_6_eq.
  unfold Fixed.div, SFdiv, SFdiv_core_binary. cbn [Zdigits2 xorb].
  rewrite Hd. change (Z.pos (digits2_pos 8589934592000000)) with 53.
  change JS.prec with 53. change JS.emax with 1024.
  replace (53 + - c - (53 + -33)) with (33 - c) by lia.
  rewrite fexp_normal by lia.
  replace (- c - -33) with (33 - c) by lia.
  rewrite Z.min_l by lia.
  replace (33 - c - (33 - c - 53)) with 53 by lia.
  rewrite Z.shiftl_mul_pow2 by lia.
  unfold q, r, Z.div, Z.modulo.
  destruct (Z.div_eucl (Z.pos mv * 2 ^ 53) D) as [q0 r0] eqn:E.
  fold D. rewrite E. cbn [fst snd].
  replace (33 - c - 53) with (- c - 20) by lia.
  reflexivity.
Qed.

(** The quotient of a positive amount below [10^6 * 2^33] by [10^6], as a
    number [m * 2^-k]: it is less than half a millionth away from the
    amount in millionths. *)
Lemma div_pow_10_6_near (v : Z) :
  1 <= v < 8589934592000000 ->
  exists m k,
    Fixed.div (JS.of_Z v) Fixed.pow_10_6 = S754_finite false m (- k) /\
    18 <= k <= 72 /\
    - 2 ^ k < 2 * (Z.pos m * 10 ^ 6 - v * 2 ^ k) < 2 ^ k.
Proof.
  intros Hv.
  destruct (of_Z_normal v) as (mn & c & -> & Hc & Hmn & Hd).
  { change (2 ^ 53) with 9007199254740992. lia. }
  rewrite (div_pow_10_6 mn c Hd Hc). cbv zeta.
  pose proof (digits2_pos_bounds mn) as Hb. rewrite Hd in Hb.
  change (2 ^ (53 - 1)) with 4503599627370496 in Hb.
  change (2 ^ 53) with 9007199254740992 in *.
  change (10 ^ 6) with 1000000.
  set (D := 8589934592000000) in *.
  set (N := Z.pos mn * 9007199254740992).
  pose proof (Z.div_mod N D ltac:(subst D; lia)) as HN.
  pose proof (Z.mod_pos_bound N D ltac:(subst D; lia)) as Hr.
  set (q := N / D) in *. set (r := N mod D) in *.
  assert (Hq : 4503599627370496 <= q < 18014398509481984).
  { subst q. split.
    - apply Z.div_le_lower_bound; subst D N; lia.
    - apply Z.div_lt_upper_bound; subst D N; lia. }
  assert (HC : 1 <= 2 ^ c) by (pose proof (Z.pow_pos_nonneg 2 c); lia).
  destruct (Z.lt_ge_cases q 9007199254740992) as [Hlt | Hge].
  - destruct (binary_round_aux_div_53 false q (- c - 20) D r) as (m' & e' & -> & He' & Hm');
      try lia.
    pose proof (div_round_error D q r Hr) as [_ Herr]. rewrite <- Hm' in Herr.
    assert (Hj : e' = - c - 20 \/ e' = - c - 20 + 1) by lia.
    exists m', (- e'). rewrite Z.opp_involutive.
    split; [reflexivity |]. split; [lia |].
    destruct Hj as [-> | ->].
    + replace (- c - 20 - (- c - 20)) with 0 in Herr by lia.
      change (2 ^ 0) with 1 in Herr.
      replace (- (- c - 20)) with (c + 20) by lia.
      rewrite Z.pow_add_r by lia. change (2 ^ 20) with 1048576.
      subst D N. lia.
    + replace (- c - 20 + 1 - (- c - 20)) with 1 in Herr by lia.
      change (2 ^ 1) with 2 in Herr.
      replace (- (- c - 20 + 1)) with (c + 19) by lia.
      rewrite Z.pow_add_r by lia. change (2 ^ 19) with 524288.
      subst D N. lia.
  - assert (Hc1 : 1 <= c).
    { destruct (Z.eq_dec c 0) as [-> |]; [| lia]. exfalso.
      change (2 ^ 0) with 1 in Hmn.
      assert (q < 9007199254740992); [| lia].
      subst q. apply Z.div_lt_upper_bound; subst D N; lia. }
    assert (HC2 : 2 ^ c = 2 * 2 ^ (c - 1)).
    { rewrite <- Z.pow_succ_r by lia. f_equal. lia. }
    assert (HC1 : 1 <= 2 ^ (c - 1)) by (pose proof (Z.pow_pos_nonneg 2 (c - 1)); lia).
    destruct (binary_round_aux_div_54 false q (- c - 20) D r) as (m' & e' & -> & He' & Herr);
      try lia.
    assert (Hj : e' = - c - 20 + 1 \/ e' = - c - 20 + 2) by lia.
    exists m', (- e'). rewrite Z.opp_involutive.
    split; [reflexivity |]. split; [lia |].
    destruct Hj as [-> | ->].
    + replace (- c - 20 + 1 - (- c - 20) - 1) with 0 in Herr by lia.
      change (2 ^ 0) with 1 in Herr.
      replace (- (- c - 20 + 1)) with (c + 19) by lia.
      rewrite Z.pow_add_r by lia. change (2 ^ 19) with 524288.
      subst D N. lia.
    + replace (- c - 20 + 2 - (- c - 20) - 1) with 1 in Herr by lia.
      change (2 ^ 1) with 2 in Herr.
      replace (- (- c - 20 + 2)) with (c - 1 + 19) by lia.
      rewrite Z.pow_add_r by lia. change (2 ^ 19) with 524288.
      subst D N. lia.
Qed.

(** X19. Line 196 of explorer.js prints an amount exactly: for an amount
    [resultValue] of at least zero and below [10^6 * 2^33 = 8589934592000000]
    micro-units, [(resultValue / Math.pow(10, 6)).toFixed(6)] is the decimal
    writing of [resultValue] with a point in front of its last six digits;
    neither the binary64 division nor [toFixed] loses a digit. *)
Theorem amount_is_printed_exactly (resultValue : Z) :
  0 <= resultValue < 8589934592000000 ->
  Fixed.formatted resultValue = Some (Fixed.point_6 resultValue).
Proof.
  intros Hv. unfold Fixed.formatted.
  destruct (Z.eq_dec resultValue 0) as [-> | Hnz]; [vm_compute; reflexivity |].
  destruct (div_pow_10_6_near resultValue) as (m & k & -> & Hk & Hnear); [lia |].
  assert (HP : 0 < 2 ^ k) by (apply Z.pow_pos_nonneg; lia).
  unfold Fixed.toFixed_6, Fixed.at_least_10_21, Fixed.nearest_millionths.
  replace (0 <=? - k) with false by (symmetry; apply Z.leb_gt; lia).
  rewrite Z.opp_involutive.
  change (10 ^ 6) with 1000000 in *. change (10 ^ 21) with 1000000000000000000000.
  replace (1000000000000000000000 * 2 ^ k <=? Z.pos m) with false
    by (symmetry; apply Z.leb_gt; nia).
  replace ((2 * (Z.pos m * 1000000) + 2 ^ k) / 2 ^ (k + 1)) with resultValue.
  - reflexivity.
  - apply Z.div_unique with (r := 2 * (Z.pos m * 1000000 - resultValue * 2 ^ k) + 2 ^ k).
    + rewrite Z.pow_add_r by lia. change (2 ^ 1) with 2. lia.
    + rewrite Z.pow_add_r by lia. change (2 ^ 1) with 2. lia.
Qed.

Lemma amount_is_printed_exactly_witness :
  0 <= 1234567 < 8589934592000000 /\
  Fixed.formatted 1234567 = Some "1.234567".
Proof.
  split; [lia |].
  rewrite (amount_is_printed_exactly 1234567) by lia.
  vm_compute. reflexivity.
Defined.

(** From [10^6 * 2^33] on, the quotient has too few bits left for the sixth
    decimal: the amount 8589934592000001 is printed with a last digit 2. *)
Example formatted_above_the_bound :
  Fixed.formatted 8589934592000001 = Some "8589934592.000002".
Proof. vm_compute. reflexivity. Qed.

(** Some amounts as they are printed. *)
Example formatted_small :
  Fixed.formatted 0 = Some "0.000000" /\
  Fixed.formatted 7 = Some "0.000007" /\
  Fixed.formatted 1000000 = Some "1.000000" /\
  Fixed.formatted 9000000000000000 = Some "9000000000.000000" /\
  Fixed.formatted (-1500000) = Some "-1.500000".
Proof. repeat split; vm_compute; reflexivity. Qed.

(** * Malformed identifiers: who rejects them *)



(** With a levy option beside it, the malformed identifier still costs no
    request of its own: the balance request of [--networkFee] is the only
    one, and the help comes after the amount. *)
Example run_networkFee_totalSupply_dimcoin :
  let NEM := Sample.nem (Sample.ok []) (Sample.ok [Sample.balance 7]) in
  let api := Sample.api (Sample.ok []) (Sample.ok [Sample.balance 7]) in
  let this := {| argv_is_help := false; command_api := api; version := "1.0.0" |} in
  let env := {| raw := true; networkFee := true; payoutFee := false;
                totalSupply_option := Some "dimcoin" |} in
  let w' := snd (run NEM Sample.registry this env (Sample.world (Sample.ok []) (Sample.ok []))) in
  sent w' = [OwnedMosaicsRequest (node api) Sample.levy_account] /\
  console w' = [Output true "Total Network Fee " 7 "dim:coin"; Help; Exit].
Proof. cbv zeta. split; vm_compute; reflexivity. Qed.
